(** * SelfEval: a heuristic code-quality scorer (selfeval.py)

    Shallow embedding of [selfeval.py] and the properties of its analyzers
    and of the aggregator [evaluate_code].

    Conventions of the embedding.
    - A code text is a [string]; its characters are the code points below
      256, classified as CPython classifies them ([str.isspace], [\w], [\d],
      [str.lower]).
    - Python integers are [Z]; lengths and counts are [nat], injected with
      [Z.of_nat] where they meet a score.
    - [percentage] and the documentation ratio are Python floats obtained by
      one division of integers (and one multiplication by 100).  They are
      modelled as exact rationals [Q]: rounding to the nearest double is
      monotone and exact at 0, so signs, bounds by 0 and 100 and the
      comparisons with the thresholds agree with the exact values for all
      texts of realistic size.
    - [ast.parse] and the regular-expression engine of module [re] are not
      code of the repository.  The parser is a parameter [ast_parse]; the
      fragment of [re] that the patterns of the source use is embedded as a
      backtracking matcher, so that every pattern of the source appears as a
      term to be compared with its text. *)

From Stdlib Require Import Bool Arith ZArith QArith Lia List Ascii String.
From Stdlib Require Import DecimalString.
From Stdlib Require Import Permutation.
Import ListNotations.

Close Scope Q_scope.
Open Scope list_scope.
Open Scope string_scope.
Open Scope nat_scope.

(* ================================================================== *)
(** ** Python strings *)
(* ================================================================== *)

Module PyStr.

Definition code_point (c : ascii) : nat := nat_of_ascii c.

Definition between (lo hi : nat) (c : ascii) : bool :=
  (lo <=? code_point c) && (code_point c <=? hi).

Definition is_char (a c : ascii) : bool := Ascii.eqb a c.

(** The newline, the double quote and the space. *)
Definition NL : ascii := "010"%char.
Definition DQ : ascii := "034"%char.
Definition SP : ascii := " "%char.

(** [str.isspace], which is also the class [\s] of [re] on [str]. *)
Definition is_space (c : ascii) : bool :=
  between 9 13 c || between 28 32 c
  || (code_point c =? 133) || (code_point c =? 160).

(** The class [\d]. *)
Definition is_digit (c : ascii) : bool := between 48 57 c.

Definition is_az (c : ascii) : bool := between 97 122 c.
Definition is_AZ (c : ascii) : bool := between 65 90 c.

(** The class [\w]: alphanumeric code points and the underscore. *)
Definition is_word (c : ascii) : bool :=
  is_digit c || is_AZ c || is_az c || (code_point c =? 95)
  || (code_point c =? 170) || between 178 179 c || (code_point c =? 181)
  || between 185 186 c || between 188 190 c
  || between 192 214 c || between 216 246 c || between 248 255 c.

(** [str.lower] on one character. *)
Definition lower_char (c : ascii) : ascii :=
  if is_AZ c || between 192 214 c || between 216 222 c
  then ascii_of_nat (code_point c + 32) else c.

Fixpoint lower (s : string) : string :=
  match s with
  | EmptyString => EmptyString
  | String a t => String (lower_char a) (lower t)
  end.

Definition len (s : string) : nat := String.length s.

Definition is_empty (s : string) : bool :=
  match s with EmptyString => true | _ => false end.

(** [s.split(NL)], the split at newlines. *)
Fixpoint split_nl (s : string) : list string :=
  match s with
  | EmptyString => [EmptyString]
  | String a t =>
      if is_char NL a then EmptyString :: split_nl t
      else match split_nl t with
           | h :: r => String a h :: r
           | [] => [String a EmptyString]
           end
  end.

(** [sep.join(l)]. *)
Definition join (sep : string) (l : list string) : string :=
  String.concat sep l.

(** A text written line by line. *)
Definition unlines (l : list string) : string :=
  join (String NL EmptyString) l.

Fixpoint lstrip (s : string) : string :=
  match s with
  | EmptyString => EmptyString
  | String a t => if is_space a then lstrip t else s
  end.

Fixpoint rstrip (s : string) : string :=
  match s with
  | EmptyString => EmptyString
  | String a t =>
      let t' := rstrip t in
      if is_empty t' && is_space a then EmptyString else String a t'
  end.

(** [s.strip()]. *)
Definition strip (s : string) : string := rstrip (lstrip s).

(** [s.startswith(p)]. *)
Definition startswith (p s : string) : bool := String.prefix p s.

(** [s.endswith(p)]. *)
Definition endswith (p s : string) : bool :=
  (len p <=? len s) && String.eqb (String.substring (len s - len p) (len p) s) p.

(** [s.count(sub)] for a non-empty [sub]: occurrences that do not
    overlap, from the left.  [skip] is the number of characters still
    covered by the occurrence just counted. *)
Fixpoint count_from (sub : string) (skip : nat) (s : string) : nat :=
  match s with
  | EmptyString => 0
  | String _ t =>
      match skip with
      | S k => count_from sub k t
      | O => if String.prefix sub s
             then S (count_from sub (len sub - 1) t)
             else count_from sub 0 t
      end
  end.

Definition count (sub s : string) : nat := count_from sub 0 s.

(** [sub in s]. *)
Fixpoint contains (sub s : string) : bool :=
  String.prefix sub s
  || match s with
     | EmptyString => false
     | String _ t => contains sub t
     end.

(** [str(n)] for a natural number. *)
Definition str_of_nat (n : nat) : string :=
  NilZero.string_of_uint (Nat.to_uint n).

(** [c * n]: a character repeated. *)
Fixpoint repeat_char (c : ascii) (n : nat) : string :=
  match n with
  | O => EmptyString
  | S k => String c (repeat_char c k)
  end.

End PyStr.

(* ================================================================== *)
(** ** The fragment of Python's [re] used by the analyzers *)
(* ================================================================== *)

Module Re.
Import PyStr.

(** Patterns.  Repetition is greedy; [Grp] is the (single) capturing
    group of a pattern; [NotAhead] is [(?!...)]. *)
Inductive regex : Type :=
| Lit (s : string)
| Cls (p : ascii -> bool)
| Seq (r1 r2 : regex)
| Alt (r1 r2 : regex)
| Star (r : regex)
| Grp (r : regex)
| Bol
| Eol
| WordB
| NotAhead (r : regex).

Definition Plus (r : regex) : regex := Seq r (Star r).

Fixpoint seqs (l : list regex) : regex :=
  match l with
  | [] => Lit EmptyString
  | [r] => r
  | r :: t => Seq r (seqs t)
  end.

(** A position in the subject: its index, the character before it and
    the rest of the subject from it. *)
Record cursor : Type := Cursor {
  pos : nat;
  before : option ascii;
  after : string
}.

Definition start_of (s : string) : cursor :=
  {| pos := 0; before := None; after := s |}.

Definition advance (c : cursor) : cursor :=
  match after c with
  | EmptyString => c
  | String a t => {| pos := S (pos c); before := Some a; after := t |}
  end.

(** The cursor [n] characters further, stopping at the end: Python clamps
    the [pos] argument of a search to the length of the subject. *)
Fixpoint advance_n (n : nat) (c : cursor) : cursor :=
  match n with
  | O => c
  | S k => match after c with
           | EmptyString => c
           | String _ _ => advance_n k (advance c)
           end
  end.

Fixpoint skip_lit (l : string) (c : cursor) : option cursor :=
  match l with
  | EmptyString => Some c
  | String a l' =>
      match after c with
      | String b _ => if is_char a b then skip_lit l' (advance c) else None
      | EmptyString => None
      end
  end.

(** [^]: the beginning of the subject, and with [re.MULTILINE] also the
    position after a newline. *)
Definition at_bol (multiline : bool) (c : cursor) : bool :=
  (pos c =? 0)
  || (multiline && match before c with
                   | Some a => is_char NL a
                   | None => false
                   end).

(** [$] without [re.MULTILINE]: the end of the subject, or the position
    of a newline that ends it. *)
Definition at_eol (c : cursor) : bool :=
  match after c with
  | EmptyString => true
  | String a EmptyString => is_char NL a
  | _ => false
  end.

Definition word_before (c : cursor) : bool :=
  match before c with Some a => is_word a | None => false end.

Definition word_after (c : cursor) : bool :=
  match after c with String a _ => is_word a | EmptyString => false end.

(** [\b]. *)
Definition at_word_boundary (c : cursor) : bool :=
  xorb (word_before c) (word_after c).

(** The outcome of a match: where it ends and what the group holds. *)
Definition outcome : Type := cursor * option string.

(** Backtracking matcher in continuation-passing style: [k] is what must
    still match after [r].  An iteration of [Star] must consume a
    character, so the characters left bound the number of iterations. *)
Fixpoint rmatch (multiline : bool) (r : regex) (c : cursor)
    (g : option string) (k : cursor -> option string -> option outcome)
    {struct r} : option outcome :=
  match r with
  | Lit l => match skip_lit l c with Some c' => k c' g | None => None end
  | Cls p =>
      match after c with
      | String a _ => if p a then k (advance c) g else None
      | EmptyString => None
      end
  | Seq r1 r2 =>
      rmatch multiline r1 c g (fun c' g' => rmatch multiline r2 c' g' k)
  | Alt r1 r2 =>
      match rmatch multiline r1 c g k with
      | Some o => Some o
      | None => rmatch multiline r2 c g k
      end
  | Star r1 =>
      (fix loop (n : nat) (c : cursor) (g : option string) {struct n}
         : option outcome :=
         match n with
         | O => k c g
         | S n' =>
             match rmatch multiline r1 c g
                     (fun c' g' =>
                        if pos c <? pos c' then loop n' c' g' else None)
             with
             | Some o => Some o
             | None => k c g
             end
         end) (len (after c)) c g
  | Grp r1 =>
      rmatch multiline r1 c g
        (fun c' _ =>
           k c' (Some (String.substring 0 (pos c' - pos c) (after c))))
  | Bol => if at_bol multiline c then k c g else None
  | Eol => if at_eol c then k c g else None
  | WordB => if at_word_boundary c then k c g else None
  | NotAhead r1 =>
      match rmatch multiline r1 c g (fun c' g' => Some (c', g')) with
      | Some _ => None
      | None => k c g
      end
  end.

(** A match object: [m.start()], [m.end()], [m.group(0)], [m.group(1)]. *)
Record match_obj : Type := MatchObj {
  m_start : nat;
  m_end : nat;
  m_text : string;
  m_group : option string
}.

Definition match_here (multiline : bool) (r : regex) (c : cursor)
  : option match_obj :=
  match rmatch multiline r c None (fun c' g' => Some (c', g')) with
  | Some (c', g') =>
      Some {| m_start := pos c; m_end := pos c';
              m_text := String.substring 0 (pos c' - pos c) (after c);
              m_group := g' |}
  | None => None
  end.

(** The successive matches from a cursor on, left to right, none
    overlapping.  (No pattern of the source matches the empty string; after
    an empty match the scan moves one character on.) *)
Fixpoint scan (multiline : bool) (r : regex) (fuel : nat) (c : cursor)
  : list match_obj :=
  match fuel with
  | O => []
  | S f =>
      let next :=
        match after c with
        | EmptyString => []
        | String _ _ => scan multiline r f (advance c)
        end in
      match match_here multiline r c with
      | Some m =>
          m :: (if m_start m <? m_end m
                then scan multiline r f (advance_n (m_end m - m_start m) c)
                else next)
      | None => next
      end
  end.

(** [pattern.finditer(s, pos)] for a compiled pattern. *)
Definition finditer (multiline : bool) (r : regex) (s : string) (p : nat)
  : list match_obj :=
  let c := advance_n p (start_of s) in
  scan multiline r (S (len (after c))) c.

Definition group1 (m : match_obj) : string :=
  match m_group m with Some g => g | None => EmptyString end.

(** [re.findall(pattern, s)] for a pattern with one group: the texts of
    the group. *)
Definition findall_group (multiline : bool) (r : regex) (s : string)
  : list string :=
  map group1 (finditer multiline r s 0).

(** [re.findall(pattern, s)] for a pattern without group: the texts of
    the matches. *)
Definition findall (multiline : bool) (r : regex) (s : string)
  : list string :=
  map m_text (finditer multiline r s 0).

(** [re.search(pattern, s)], as a truth value. *)
Definition search (multiline : bool) (r : regex) (s : string) : bool :=
  match finditer multiline r s 0 with [] => false | _ :: _ => true end.

(** [re.match(pattern, s)], as a truth value. *)
Definition match_start (multiline : bool) (r : regex) (s : string) : bool :=
  match match_here multiline r (start_of s) with
  | Some _ => true
  | None => false
  end.

(** Character classes of the patterns. *)
Definition any_of (l : list ascii) (c : ascii) : bool :=
  existsb (fun a => is_char a c) l.
Definition none_of (l : list ascii) (c : ascii) : bool :=
  negb (any_of l c).
Definition non_space (c : ascii) : bool := negb (is_space c).

Definition s_plus : regex := Plus (Cls is_space).
Definition w_plus : regex := Plus (Cls is_word).

End Re.

Import PyStr Re.

(* ================================================================== *)
(** ** Criteria registry *)
(* ================================================================== *)

Definition CRITERIA_DESCRIPTIONS : list (string * string) :=
  [ ("correctness", "Code is free from syntax errors and logical bugs.");
    ("efficiency", "Code uses efficient algorithms and data structures.");
    ("readability", "Code is easy to read and understand.");
    ("maintainability", "Code is easy to maintain and extend.");
    ("documentation", "Code is well-documented with clear explanations.");
    ("testability", "Code is designed to be easily testable.");
    ("error_handling", "Code handles errors and edge cases appropriately.");
    ("security", "Code is secure and protects against common vulnerabilities.");
    ("modularity", "Code is organized into reusable, well-defined modules.");
    ("best_practices", "Code follows language-specific best practices.") ].

Definition DEFAULT_CRITERIA : list string :=
  [ "correctness"; "efficiency"; "readability"; "documentation";
    "best_practices" ].

(** [x in l] for a list of strings. *)
Definition mem (x : string) (l : list string) : bool :=
  existsb (String.eqb x) l.

(** [c in CRITERIA_DESCRIPTIONS]. *)
Definition is_criterion (c : string) : bool :=
  mem c (map fst CRITERIA_DESCRIPTIONS).

(* ================================================================== *)
(** ** Results of the analyzers *)
(* ================================================================== *)

(** The running state of a pattern-based analyzer: its [score] and the
    lists [issues] and [positives] it appends to. *)
Record tally : Type := Tally {
  t_score : Z;
  t_issues : list string;
  t_positives : list string
}.

Definition start_tally : tally :=
  {| t_score := 7; t_issues := []; t_positives := [] |}.

(** [issues.append(msg); score -= n]. *)
Definition deduct (n : Z) (msg : string) (t : tally) : tally :=
  {| t_score := t_score t - n;
     t_issues := t_issues t ++ [msg];
     t_positives := t_positives t |}.

(** [positives.append(msg); score += n]. *)
Definition award (n : Z) (msg : string) (t : tally) : tally :=
  {| t_score := t_score t + n;
     t_issues := t_issues t;
     t_positives := t_positives t ++ [msg] |}.

(** [score += n], nothing appended. *)
Definition adjust (n : Z) (t : tally) : tally :=
  {| t_score := t_score t + n;
     t_issues := t_issues t;
     t_positives := t_positives t |}.

Definition count_of {A : Type} (l : list A) : Z := Z.of_nat (List.length l).

(* ================================================================== *)
(** ** Documentation analyzer *)
(* ================================================================== *)

(** The three double quotes that open and close a docstring. *)
Definition QQQ : string := String DQ (String DQ (String DQ EmptyString)).

(** [docstring_pattern] (line 54): three double quotes, any run of
    characters other than the double quote, three double quotes. *)
Definition docstring_pattern : regex :=
  seqs [Lit QQQ; Star (Cls (none_of [DQ])); Lit QQQ].

Definition docstrings (code : string) : list string :=
  findall false docstring_pattern code.

(** One turn of the loop over the lines: the pair is
    [(comment_count, code_lines)]. *)
Definition doc_line (acc : nat * nat) (line : string) : nat * nat :=
  let line := strip line in
  if negb (is_empty line) && negb (startswith QQQ line) then
    if startswith "#" line then (S (fst acc), snd acc)
    else if negb (endswith QQQ line) then (fst acc, S (snd acc))
    else acc
  else acc.

Definition doc_counts (code : string) : nat * nat :=
  fold_left doc_line (split_nl code) (0, 0).

Definition comment_count (code : string) : nat := fst (doc_counts code).
Definition code_lines (code : string) : nat := snd (doc_counts code).

(** [(len(docstrings) + comment_count) / max(1, code_lines)]. *)
Definition doc_ratio (code : string) : Q :=
  (inject_Z (Z.of_nat (List.length (docstrings code) + comment_count code))
   / inject_Z (Z.of_nat (Nat.max 1 (code_lines code))))%Q.

Definition evaluate_documentation (code : string) : Z * string :=
  if Qle_bool (3 # 10) (doc_ratio code)
     && (0 <? List.length (docstrings code)) then
    (9%Z, "Code is well-documented with clear explanations.")
  else if Qle_bool (15 # 100) (doc_ratio code) then
    (6%Z, "Code has adequate documentation but could be improved.")
  else
    (3%Z, "Code lacks sufficient documentation.").

(* ================================================================== *)
(** ** Efficiency analyzer *)
(* ================================================================== *)

(** The pattern of line 88: for, spaces, word, spaces, in, spaces and the
    text range(len( *)
Definition range_len_pattern : regex :=
  seqs [Lit "for"; s_plus; w_plus; s_plus; Lit "in"; s_plus;
        Lit "range(len("].

(** The pattern of line 93: a loop header up to its colon, the rest of
    the line, a newline, and on the next line any characters, then spaces
    and a second loop header up to its in. *)
Definition nested_loop_pattern : regex :=
  seqs [Lit "for"; s_plus; w_plus; s_plus; Lit "in";
        Plus (Cls (none_of [":"%char])); Lit ":";
        Star (Cls (none_of [NL])); Lit (String NL EmptyString);
        Star (Cls (none_of [NL])); s_plus;
        Lit "for"; s_plus; w_plus; s_plus; Lit "in"].

(** The pattern of line 99: an opening bracket, characters other than
    brackets, a loop header, characters other than brackets, a closing
    bracket. *)
Definition comprehension_pattern : regex :=
  seqs [Lit "["; Plus (Cls (none_of ["]"%char; "["%char]));
        Lit "for"; s_plus; w_plus; s_plus; Lit "in";
        Plus (Cls (none_of ["]"%char; "["%char])); Lit "]"].

Definition eff_increment (code : string) (t : tally) : tally :=
  if contains "+= 1" code && negb (contains "counter" (lower code)) then
    deduct 1
      "Consider using more efficient increment methods where applicable" t
  else t.

Definition eff_range_len (code : string) (t : tally) : tally :=
  if search false range_len_pattern code then
    deduct 1 "Using range(len()) is less readable than direct iteration" t
  else t.

Definition nested_loop_count (code : string) : nat :=
  List.length (findall false nested_loop_pattern code).

Definition eff_nested_loops (code : string) (t : tally) : tally :=
  let n := nested_loop_count code in
  if 1 <? n then
    deduct (Z.min (Z.of_nat n) 3)
      ("Found " ++ str_of_nat n
       ++ " nested loops; consider optimizing if processing large data") t
  else t.

Definition comprehensions (code : string) : nat :=
  List.length (findall false comprehension_pattern code).

Definition eff_comprehensions (code : string) (t : tally) : tally :=
  let n := comprehensions code in
  if 0 <? n then adjust (Z.min (Z.of_nat n) 2) t else t.

(** The issues joined by newlines, or the empty string if there is none. *)
Definition issue_lines (issues : list string) : string :=
  match issues with
  | [] => EmptyString
  | _ :: _ => join (String NL EmptyString) issues
  end.

Definition efficiency_tally (code : string) : tally :=
  eff_comprehensions code
    (eff_nested_loops code
       (eff_range_len code (eff_increment code start_tally))).

Definition evaluate_efficiency (code : string) : Z * string :=
  let t := efficiency_tally code in
  if (8 <=? t_score t)%Z then
    (t_score t, "Code appears to be efficient with good algorithmic choices.")
  else if (5 <=? t_score t)%Z then
    (t_score t,
     "Code has reasonable efficiency but could be improved. "
     ++ issue_lines (t_issues t))
  else
    (t_score t,
     "Code has potential efficiency issues: " ++ issue_lines (t_issues t)).

(* ================================================================== *)
(** ** Readability analyzer *)
(* ================================================================== *)

(** [variable_pattern] (line 128): a word boundary, the group of a
    character of [a-z_] followed by characters of [a-z0-9_], any spaces,
    the sign =, a character other than =. *)
Definition variable_pattern : regex :=
  seqs [WordB;
        Grp (Seq (Cls (fun c => is_az c || is_char "_" c))
                 (Star (Cls (fun c => is_az c || between 48 57 c
                                      || is_char "_" c))));
        Star (Cls (is_char SP)); Lit "="; Cls (none_of ["="%char])].

(** [func_pattern] (line 137): def, spaces, the group of a character of
    [a-zA-Z_] followed by characters of [a-zA-Z0-9_]. *)
Definition func_pattern : regex :=
  seqs [Lit "def"; s_plus;
        Grp (Seq (Cls (fun c => is_az c || is_AZ c || is_char "_" c))
                 (Star (Cls (fun c => is_az c || is_AZ c || between 48 57 c
                                      || is_char "_" c))))].

(** The pattern of line 139: from the start, a character of [a-z],
    characters of [a-z0-9_], the end. *)
Definition snake_case_pattern : regex :=
  seqs [Bol; Cls is_az;
        Star (Cls (fun c => is_az c || between 48 57 c || is_char "_" c));
        Eol].

(** [indent_pattern] (line 147), compiled without flag: from the start,
    the group of any spaces, a character that is not white space. *)
Definition indent_pattern : regex :=
  seqs [Bol; Grp (Star (Cls (is_char SP))); Cls non_space].

(** The value of the flag [re.MULTILINE]. *)
Definition re_MULTILINE : nat := 8.

Definition long_lines (code : string) : nat :=
  List.length (filter (fun line => 100 <? len (strip line)) (split_nl code)).

Definition variables (code : string) : list string :=
  findall_group false variable_pattern code.

Definition short_vars (code : string) : list string :=
  filter (fun var => (len var <? 3)
                     && negb (mem var ["i"; "j"; "k"; "x"; "y"; "z"]))
         (variables code).

Definition funcs (code : string) : list string :=
  findall_group false func_pattern code.

Definition non_snake_case (code : string) : list string :=
  filter (fun f => negb (match_start false snake_case_pattern f))
         (funcs code).

(** [[len(m.group(1)) for m in indent_pattern.finditer(code, re.MULTILINE)
      if m.group(1)]]: the second argument of the method [finditer] of a
    compiled pattern is the position where the scan starts. *)
Definition indents (code : string) : list nat :=
  map (fun m => len (group1 m))
      (filter (fun m => negb (is_empty (group1 m)))
              (finditer false indent_pattern code re_MULTILINE)).

(** The scan the comment of the source describes: every line of the text,
    that is the pattern compiled with [re.MULTILINE] and scanned from the
    start.  Not what the source runs; kept to compare. *)
Definition indents_of_every_line (code : string) : list nat :=
  map (fun m => len (group1 m))
      (filter (fun m => negb (is_empty (group1 m)))
              (finditer true indent_pattern code 0)).

Definition read_long_lines (code : string) (t : tally) : tally :=
  let n := long_lines code in
  if 0 <? n then
    deduct (Z.min (Z.of_nat n) 3)
      ("Found " ++ str_of_nat n ++ " lines exceeding recommended length") t
  else t.

Definition read_short_vars (code : string) (t : tally) : tally :=
  let l := short_vars code in
  match l with
  | [] => t
  | _ :: _ =>
      deduct (Z.min (count_of l) 2)
        ("Found " ++ str_of_nat (List.length l)
         ++ " variables with overly short names") t
  end.

Definition read_func_names (code : string) (t : tally) : tally :=
  let l := non_snake_case code in
  match l with
  | [] => t
  | _ :: _ =>
      deduct (Z.min (count_of l) 2)
        ("Found " ++ str_of_nat (List.length l)
         ++ " function names not using snake_case") t
  end.

(** [indents and any(i % 4 != 0 for i in indents)] *)
Definition inconsistent_indent (code : string) : bool :=
  match indents code with
  | [] => false
  | _ :: _ => existsb (fun i => negb (i mod 4 =? 0)) (indents code)
  end.

Definition read_indentation (code : string) (t : tally) : tally :=
  if inconsistent_indent code then adjust (-2) t else t.

Definition readability_tally (code : string) : tally :=
  read_indentation code
    (read_func_names code
       (read_short_vars code (read_long_lines code start_tally))).

Definition evaluate_readability (code : string) : Z * string :=
  let t := readability_tally code in
  if (8 <=? t_score t)%Z then
    (t_score t, "Code is very readable with good naming and formatting.")
  else if (5 <=? t_score t)%Z then
    (t_score t,
     "Code has reasonable readability but could be improved. "
     ++ issue_lines (t_issues t))
  else
    (t_score t, "Code has readability issues: " ++ issue_lines (t_issues t)).

(* ================================================================== *)
(** ** Best-practices analyzer *)
(* ================================================================== *)

(** The pattern of line 169, used with [re.MULTILINE]: at the start of a
    line, the group of a character of [a-zA-Z_] followed by characters of
    [a-zA-Z0-9_], any white space, the sign =, a character other
    than =. *)
Definition global_var_pattern : regex :=
  seqs [Bol;
        Grp (Seq (Cls (fun c => is_az c || is_AZ c || is_char "_" c))
                 (Star (Cls (fun c => is_az c || is_AZ c || between 48 57 c
                                      || is_char "_" c))));
        Star (Cls is_space); Lit "="; Cls (none_of ["="%char])].

(** The pattern of line 176: a character that is neither a word
    character, a digit nor a dot; the group of either one digit of [2-9] or
    a digit of [1-9] followed by digits; not followed by a digit or a
    dot. *)
Definition magic_number_pattern : regex :=
  seqs [Cls (fun c => negb (is_word c || is_digit c || is_char "." c));
        Grp (Alt (Cls (between 50 57))
                 (Seq (Cls (between 49 57)) (Plus (Cls is_digit))));
        NotAhead (Cls (fun c => is_digit c || is_char "." c))].

Definition global_vars (code : string) : list string :=
  findall_group true global_var_pattern code.

Definition magic_numbers (code : string) : list string :=
  findall_group false magic_number_pattern code.

Definition try_blocks (code : string) : nat := count "try:" code.
Definition except_blocks (code : string) : nat := count "except" code.
Definition with_count (code : string) : nat := count "with" code.

Definition bp_global_vars (code : string) (t : tally) : tally :=
  let n := List.length (global_vars code) in
  if 3 <? n then
    deduct (Z.min (Z.of_nat n - 3) 2)
      ("Uses " ++ str_of_nat n ++ " global variables") t
  else t.

Definition bp_magic_numbers (code : string) (t : tally) : tally :=
  let n := List.length (magic_numbers code) in
  if 5 <? n then
    deduct (Z.min (Z.of_nat n / 5) 2)
      ("Contains " ++ str_of_nat n
       ++ " magic numbers that should be constants") t
  else t.

(** Lines 181 to 189: the check of exception handling. *)
Definition bp_exception_handling (code : string) (t : tally) : tally :=
  if (0 <? try_blocks code) && (try_blocks code =? except_blocks code)
     && negb (contains "except:" code) then
    award 1 "Uses proper exception handling" t
  else if contains "except:" code then
    deduct 1 "Uses bare except clauses without specifying exception types" t
  else t.

Definition bp_context_managers (code : string) (t : tally) : tally :=
  let n := with_count code in
  if 0 <? n then
    award (Z.min (Z.of_nat n) 2)
      ("Uses context managers (" ++ str_of_nat n ++ " with statements)") t
  else t.

Definition best_practices_tally (code : string) : tally :=
  bp_context_managers code
    (bp_exception_handling code
       (bp_magic_numbers code (bp_global_vars code start_tally))).

Definition evaluate_best_practices (code : string) : Z * string :=
  let t := best_practices_tally code in
  if (8 <=? t_score t)%Z then
    (t_score t,
     "Code follows best practices well. " ++ join ", " (t_positives t))
  else if (5 <=? t_score t)%Z then
    (t_score t,
     "Code follows most best practices but has some issues. "
     ++ join ", " (t_issues t))
  else
    (t_score t,
     "Code has several best practice issues: " ++ join ", " (t_issues t)).

(* ================================================================== *)
(** ** Reports *)
(* ================================================================== *)

Module CriterionResult.
Record t : Type := Make {
  score : Z;
  max_score : Z;
  message : string
}.
End CriterionResult.

(** A Python [dict] with string keys: the items in insertion order.
    Assigning to a key that is present keeps its place. *)
Definition dict (V : Type) : Type := list (string * V).

Fixpoint dict_set {V : Type} (k : string) (v : V) (d : dict V) : dict V :=
  match d with
  | [] => [(k, v)]
  | (k', v') :: rest =>
      if String.eqb k' k then (k', v) :: rest
      else (k', v') :: dict_set k v rest
  end.

Fixpoint dict_get {V : Type} (k : string) (d : dict V) : option V :=
  match d with
  | [] => None
  | (k', v') :: rest => if String.eqb k' k then Some v' else dict_get k rest
  end.

Definition dict_has {V : Type} (k : string) (d : dict V) : bool :=
  match dict_get k d with Some _ => true | None => false end.

Definition keys {V : Type} (d : dict V) : list string := map fst d.

Record Report : Type := MakeReport {
  total_score : Z;
  max_score : Z;
  percentage : Q;
  criteria_results : dict CriterionResult.t;
  summary : string
}.

(** The envelope returned by [run]. *)
Inductive RunResult : Type :=
| RunFailed (error : string) (status : string)
| RunSucceeded (evaluation : Report) (status : string).

(** The parameter bag of [run]: the entries under the keys code and
    criteria, when present. *)
Record Params : Type := MakeParams {
  p_code : option string;
  p_criteria : option (list string)
}.

(** What [ast.parse] does on a text: it returns, raises [SyntaxError]
    (with its attributes [lineno], which may be [None], and [msg]), or
    raises another exception (with its [str]). *)
Inductive ParseOutcome : Type :=
| Parsed
| RaisedSyntaxError (lineno : option nat) (msg : string)
| RaisedException (text : string).

(** The formatting of [e.lineno] in an f-string. *)
Definition str_of_lineno (l : option nat) : string :=
  match l with Some n => str_of_nat n | None => "None" end.

(** The local variables of [evaluate_code].  [invoked] is not a variable
    of the source: it logs the analyzers called so far, in order, so that
    which of them run can be stated. *)
Record frame : Type := Frame {
  results : dict CriterionResult.t;
  total : Z;
  max_possible : Z;
  invoked : list string
}.

Definition empty_frame : frame :=
  {| results := []; total := 0; max_possible := 0; invoked := [] |}.

(** Lines 265 to 272 (and 221 to 227): store the result, add to the sums. *)
Definition store (criterion : string) (r : Z * string) (f : frame) : frame :=
  {| results :=
       dict_set criterion
         {| CriterionResult.score := fst r;
            CriterionResult.max_score := 10;
            CriterionResult.message := snd r |} (results f);
     total := total f + fst r;
     max_possible := max_possible f + 10;
     invoked := invoked f |}.

Definition call (analyzer : string) (f : frame) : frame :=
  {| results := results f; total := total f;
     max_possible := max_possible f;
     invoked := invoked f ++ [analyzer] |}.

Definition not_evaluated : CriterionResult.t :=
  {| CriterionResult.score := 0;
     CriterionResult.max_score := 10;
     CriterionResult.message := "Not evaluated due to syntax errors" |}.

(** Lines 231 to 237: one turn of the loop that stamps the criteria left. *)
Definition stamp (d : dict CriterionResult.t) (c : string)
  : dict CriterionResult.t :=
  if negb (String.eqb c "correctness") && negb (dict_has c d)
  then dict_set c not_evaluated d else d.

(** Lines 247 to 272: one turn of the main loop. *)
Definition process (code : string) (f : frame) (criterion : string) : frame :=
  if String.eqb criterion "correctness" && dict_has "correctness" (results f)
  then f
  else if String.eqb criterion "documentation" then
    store criterion (evaluate_documentation code)
      (call "evaluate_documentation" f)
  else if String.eqb criterion "efficiency" then
    store criterion (evaluate_efficiency code) (call "evaluate_efficiency" f)
  else if String.eqb criterion "readability" then
    store criterion (evaluate_readability code)
      (call "evaluate_readability" f)
  else if String.eqb criterion "best_practices" then
    store criterion (evaluate_best_practices code)
      (call "evaluate_best_practices" f)
  else
    store criterion
      (5%Z, "Basic " ++ criterion
            ++ " check - detailed evaluation not implemented yet.") f.

(** [(total_score / max_possible) * 100 if max_possible > 0 else 0] *)
Definition percent (total_score max_possible : Z) : Q :=
  if (0 <? max_possible)%Z
  then (inject_Z total_score / inject_Z max_possible * 100)%Q
  else 0%Q.

Definition summary_of (percentage : Q) : string :=
  if Qle_bool 80 percentage then
    "High-quality code that follows good practices in most areas."
  else if Qle_bool 60 percentage then
    "Solid code with some areas for improvement."
  else if Qle_bool 40 percentage then
    "Code needs improvement in several key areas."
  else "Code has significant issues that should be addressed.".

(** Where [evaluate_code] returns: at line 238 or at line 287. *)
Inductive exit_point : Type := AfterSyntaxErrors | AtEnd.

(** The state of [evaluate_code] when it returns. *)
Record final_state : Type := FinalState {
  valid_criteria : list string;
  locals : frame;
  exit_at : exit_point
}.

(** The list that [evaluate_code] works on: the default one if the
    argument is [None] or empty, filtered by the registry. *)
Definition valid_criteria_of (criteria : option (list string)) : list string :=
  let criteria :=
    match criteria with
    | None | Some [] => DEFAULT_CRITERIA
    | Some l => l
    end in
  filter is_criterion criteria.

Definition report_of (s : final_state) : Report :=
  let f := locals s in
  match exit_at s with
  | AfterSyntaxErrors =>
      {| total_score := total f;
         max_score := Z.of_nat (List.length (valid_criteria s)) * 10;
         percentage := percent (total f) (max_possible f);
         criteria_results := results f;
         summary := "Code has syntax errors that need to be fixed before other aspects can be evaluated." |}
  | AtEnd =>
      {| total_score := total f;
         max_score := max_possible f;
         percentage := percent (total f) (max_possible f);
         criteria_results := results f;
         summary := summary_of (percent (total f) (max_possible f)) |}
  end.

Section WithParser.

(** [ast.parse], of the host language. *)
Variable ast_parse : string -> ParseOutcome.

Definition evaluate_syntactic_correctness (code : string) : Z * string :=
  match ast_parse code with
  | Parsed => (10%Z, "No syntax errors detected.")
  | RaisedSyntaxError lineno msg =>
      (0%Z, "Syntax error at line " ++ str_of_lineno lineno ++ ": " ++ msg)
  | RaisedException text => (2%Z, "Error parsing code: " ++ text)
  end.

Definition evaluate_code_state (code : string)
    (criteria : option (list string)) : final_state :=
  let valid_criteria := valid_criteria_of criteria in
  if mem "correctness" valid_criteria then
    let r := evaluate_syntactic_correctness code in
    let f := store "correctness" r
               (call "evaluate_syntactic_correctness" empty_frame) in
    if (fst r <? 3)%Z then
      {| valid_criteria := valid_criteria;
         locals :=
           {| results := fold_left stamp valid_criteria (results f);
              total := total f;
              max_possible := max_possible f;
              invoked := invoked f |};
         exit_at := AfterSyntaxErrors |}
    else
      {| valid_criteria := valid_criteria;
         locals := fold_left (process code) valid_criteria f;
         exit_at := AtEnd |}
  else
    {| valid_criteria := valid_criteria;
       locals := fold_left (process code) valid_criteria empty_frame;
       exit_at := AtEnd |}.

Definition evaluate_code (code : string) (criteria : option (list string))
  : Report :=
  report_of (evaluate_code_state code criteria).

(** [run], with the log of the analyzers it has called. *)
Definition run_logged (params : Params) : RunResult * list string :=
  let code := match p_code params with Some c => c | None => EmptyString end in
  let criteria := p_criteria params in
  if is_empty code then
    (RunFailed "Missing code parameter" "failed", [])
  else
    let s := evaluate_code_state code criteria in
    (RunSucceeded (report_of s) "success", invoked (locals s)).

Definition run (params : Params) : RunResult := fst (run_logged params).

End WithParser.

(* ================================================================== *)
(** ** Notions and inputs used in the statements *)
(* ================================================================== *)

(** A list with its repetitions removed, first occurrences kept. *)
Fixpoint dedup_from (seen l : list string) : list string :=
  match l with
  | [] => []
  | x :: rest =>
      if mem x seen then dedup_from seen rest
      else x :: dedup_from (x :: seen) rest
  end.

Definition dedup (l : list string) : list string := dedup_from [] l.

(** What CPython's parser does on the texts of the examples below: an
    opening parenthesis alone is rejected at line 1, the other texts
    parse. *)
Definition example_parser (code : string) : ParseOutcome :=
  if String.eqb code "(" then RaisedSyntaxError (Some 1) "'(' was never closed"
  else Parsed.

(** A line of two spaces of indentation under a header. *)
Definition odd_indent_code : string := unlines ["if a:"; "  b()"].

(** Three lines of more than 100 characters, two assignments to names of
    two letters and two function names that are not in snake case. *)
Definition unreadable_code : string :=
  unlines [ "ab = " ++ repeat_char "1" 100;
            "cd = " ++ repeat_char "1" 100;
            "def F" ++ repeat_char "o" 100 ++ "(): pass";
            "def G(): pass" ]%string.

(** A comment line that holds a span between triple quotes, and one that
    does not. *)
Definition quoting_comment : string := ("# " ++ QQQ ++ "doc" ++ QQQ)%string.
Definition plain_comment : string := "# doc".

(** A handler that names its exception, and a bare one. *)
Definition specific_handler_code : string :=
  unlines ["try:"; "    f()"; "except ValueError:"; "    g()"].
Definition bare_handler_code : string :=
  unlines ["try:"; "    f()"; "except:"; "    g()"].

(** A bare handler around two nested with statements, and a handler that
    names its exception after four assignments at the top level. *)
Definition bare_handler_with_code : string :=
  unlines ["try:"; "    with a:"; "        with b:"; "            f()";
           "except:"; "    g()"].
Definition globals_handler_code : string :=
  unlines ["a1 = 0"; "b1 = 0"; "c1 = 0"; "d1 = 0";
           "try:"; "    f()"; "except ValueError:"; "    g()"].

Local Open Scope Z_scope.

(** What the main loop stores for a criterion that it evaluates. *)
Definition outcome_of (code criterion : string) : Z * string :=
  if String.eqb criterion "documentation" then evaluate_documentation code
  else if String.eqb criterion "efficiency" then evaluate_efficiency code
  else if String.eqb criterion "readability" then evaluate_readability code
  else if String.eqb criterion "best_practices" then
    evaluate_best_practices code
  else
    (5, ("Basic " ++ criterion
         ++ " check - detailed evaluation not implemented yet.")%string).

Definition result_of (code criterion : string) : CriterionResult.t :=
  {| CriterionResult.score := fst (outcome_of code criterion);
     CriterionResult.max_score := 10;
     CriterionResult.message := snd (outcome_of code criterion) |}.

(** The effect of one turn of the main loop on [results]. *)
Definition step (code : string) (d : dict CriterionResult.t) (c : string)
  : dict CriterionResult.t :=
  if String.eqb c "correctness" && dict_has "correctness" d then d
  else dict_set c (result_of code c) d.

(** The number of turns of the main loop that store a result: every
    occurrence of a criterion other than correctness. *)
Definition turns_scored (valid : list string) : nat :=
  List.length (filter (fun c => negb (String.eqb c "correctness")) valid).

Definition score_in_range (kv : string * CriterionResult.t) : Prop :=
  0 <= CriterionResult.score (snd kv) <= 10.

(** Every stored score is between 0 and 10, and the sum of the scores is
    between 0 and the accumulated maximum. *)
Definition sound_frame (f : frame) : Prop :=
  Forall score_in_range (results f) /\ 0 <= total f <= max_possible f.

(** A request with a name that is not in the registry, a repeated name
    and correctness in the third place. *)
Definition mixed_request : option (list string) :=
  Some ["security"%string; "bogus"%string; "correctness"%string;
        "security"%string].

(** A text with one list comprehension. *)
Definition comprehension_code : string := "r = [a for a in b]"%string.

(* ------------------------------------------------------------------ *)
(** *** The line counter and further notions *)

(** Lines 35 to 38: one turn of the loop of [count_lines]. *)
Definition count_line (count : nat) (line : string) : nat :=
  let line := strip line in
  if negb (is_empty line) && negb (startswith "#" line)
  then S count else count.

(** [count_lines] (lines 31 to 39): the lines of the stripped text that
    are neither empty nor comments. *)
Definition count_lines (code : string) : nat :=
  fold_left count_line (split_nl (strip code)) 0%nat.

(** A line that holds something else than white space. *)
Definition is_nonblank_line (line : string) : bool :=
  negb (is_empty (strip line)).

(** A line whose first character after the indentation is the hash
    sign, and a line that holds something and is no comment. *)
Definition is_comment_line (line : string) : bool :=
  is_nonblank_line line && startswith "#" (strip line).

Definition is_code_line (line : string) : bool :=
  is_nonblank_line line && negb (startswith "#" (strip line)).

Definition how_many (p : string -> bool) (lines : list string) : nat :=
  List.length (filter p lines).

(** The code lines of a text counted in one pass over its characters:
    [decided] tells whether the current line has already shown a character
    that is not white space. *)
Fixpoint code_line_scan (decided : bool) (s : string) : nat :=
  match s with
  | EmptyString => 0%nat
  | String a t =>
      if is_char NL a then code_line_scan false t
      else if decided then code_line_scan true t
      else if is_space a then code_line_scan false t
      else ((if is_char "#" a then 0 else 1) + code_line_scan true t)%nat
  end.

(** The entry stored for the pair returned by an analyzer. *)
Definition entry_of (r : Z * string) : CriterionResult.t :=
  {| CriterionResult.score := fst r;
     CriterionResult.max_score := 10;
     CriterionResult.message := snd r |}.

(** The sum of the scores of the entries of a dictionary. *)
Definition sum_scores (d : dict CriterionResult.t) : Z :=
  fold_right (fun kv acc => CriterionResult.score (snd kv) + acc) 0 d.

(** What a turn of the main loop adds to [total_score], once correctness
    is stored: nothing for correctness, the score of its analyzer (or the
    placeholder 5) for another name. *)
Definition contribution (code c : string) : Z :=
  if String.eqb c "correctness" then 0 else fst (outcome_of code c).

Definition contributions (code : string) (l : list string) : Z :=
  fold_right (fun c acc => contribution code c + acc) 0 l.

(** The analyzer that a turn of the main loop calls for a name, if any. *)
Definition analyzer_calls (c : string) : list string :=
  if String.eqb c "documentation" then ["evaluate_documentation"]
  else if String.eqb c "efficiency" then ["evaluate_efficiency"]
  else if String.eqb c "readability" then ["evaluate_readability"]
  else if String.eqb c "best_practices" then ["evaluate_best_practices"]
  else [].

(** The list whose first occurrences give the keys of a report. *)
Definition reported (valid : list string) : list string :=
  if mem "correctness" valid then "correctness" :: valid else valid.

(** The tiers of the summary, on integers. *)
Definition tier (total_score max_score : Z) : string :=
  if 4 * max_score <=? 5 * total_score then
    "High-quality code that follows good practices in most areas."
  else if 3 * max_score <=? 5 * total_score then
    "Solid code with some areas for improvement."
  else if 2 * max_score <=? 5 * total_score then
    "Code needs improvement in several key areas."
  else "Code has significant issues that should be addressed.".

(** The documentation score, on integers: [d] docstrings, [c] comment
    lines, [l] code lines. *)
Definition documentation_band (d c l : nat) : Z :=
  let n := Z.of_nat (d + c) in
  let m := Z.of_nat (Nat.max 1 l) in
  if (3 * m <=? 10 * n) && (0 <? d)%nat then 9
  else if 15 * m <=? 100 * n then 6 else 3.

Ltac split_ifs :=
  repeat match goal with
         | |- context [if ?b then _ else _] => destruct b eqn:?
         | |- context [match ?l with [] => _ | _ :: _ => _ end] =>
             destruct l eqn:?
         end.

(* ================================================================== *)
(** ** Scores of the analyzers *)
(* ================================================================== *)

Lemma efficiency_score code :
  fst (evaluate_efficiency code) = t_score (efficiency_tally code).
Proof. unfold evaluate_efficiency. split_ifs; reflexivity. Qed.

Lemma readability_score code :
  fst (evaluate_readability code) = t_score (readability_tally code).
Proof. unfold evaluate_readability. split_ifs; reflexivity. Qed.

Lemma best_practices_score code :
  fst (evaluate_best_practices code) = t_score (best_practices_tally code).
Proof. unfold evaluate_best_practices. split_ifs; reflexivity. Qed.

Lemma efficiency_bounds code : 2 <= fst (evaluate_efficiency code) <= 9.
Proof.
  rewrite efficiency_score.
  unfold efficiency_tally, eff_comprehensions, eff_nested_loops,
    eff_range_len, eff_increment, deduct, adjust, start_tally.
  split_ifs; cbn [t_score]; lia.
Qed.

Lemma documentation_scores code :
  fst (evaluate_documentation code) = 9
  \/ fst (evaluate_documentation code) = 6
  \/ fst (evaluate_documentation code) = 3.
Proof. unfold evaluate_documentation. split_ifs; cbn; auto. Qed.

Lemma best_practices_bounds code : 2 <= fst (evaluate_best_practices code) <= 10.
Proof.
  rewrite best_practices_score.
  unfold best_practices_tally, bp_context_managers, bp_exception_handling,
    bp_magic_numbers, bp_global_vars, deduct, award, start_tally.
  pose proof (Z.div_pos (Z.of_nat (List.length (magic_numbers code))) 5
                ltac:(lia) ltac:(lia)).
  split_ifs; cbn [t_score];
    repeat match goal with
           | H : (_ <? _)%nat = true |- _ => apply Nat.ltb_lt in H
           end; lia.
Qed.

(** *** The scan for indentation finds nothing *)

Lemma pos_advance c : (pos c <= pos (advance c))%nat.
Proof. unfold advance. destruct (after c); cbn; lia. Qed.

Lemma pos_advance_n n : forall c, (pos c <= pos (advance_n n c))%nat.
Proof.
  induction n as [|n IH]; intro c; cbn; [lia|].
  destruct (after c) eqn:E; [lia|].
  specialize (IH (advance c)). pose proof (pos_advance c). lia.
Qed.

(** Without [re.MULTILINE], a pattern that begins with the anchor of the
    start matches nowhere but at index 0. *)
Lemma anchored_no_match r c :
  (1 <= pos c)%nat -> match_here false (Seq Bol r) c = None.
Proof.
  intro H. unfold match_here. cbn [rmatch]. unfold at_bol.
  destruct (pos c =? 0)%nat eqn:E; [apply Nat.eqb_eq in E; lia|].
  reflexivity.
Qed.

Lemma anchored_scan_empty r fuel :
  forall c, (1 <= pos c)%nat -> scan false (Seq Bol r) fuel c = [].
Proof.
  induction fuel as [|f IH]; intros c H; [reflexivity|].
  cbn [scan]. rewrite anchored_no_match by assumption.
  destruct (after c) eqn:E; [reflexivity|].
  apply IH. pose proof (pos_advance c). lia.
Qed.

Lemma indent_scan_empty code :
  finditer false indent_pattern code re_MULTILINE = [].
Proof.
  destruct code as [|a rest]; [reflexivity|].
  unfold finditer, indent_pattern. cbn [seqs].
  apply anchored_scan_empty.
  pose proof (pos_advance_n 7 (advance (start_of (String a rest)))) as Hp.
  exact Hp.
Qed.

Lemma indents_nil code : indents code = [].
Proof. unfold indents. rewrite indent_scan_empty. reflexivity. Qed.

Lemma inconsistent_indent_false code : inconsistent_indent code = false.
Proof. unfold inconsistent_indent. rewrite indents_nil. reflexivity. Qed.

Lemma readability_bounds code : 0 <= fst (evaluate_readability code) <= 7.
Proof.
  rewrite readability_score.
  unfold readability_tally, read_indentation.
  rewrite inconsistent_indent_false.
  unfold read_func_names, read_short_vars, read_long_lines, deduct,
    start_tally, count_of.
  split_ifs; cbn [t_score]; lia.
Qed.

(* ================================================================== *)
(** ** Dictionaries *)
(* ================================================================== *)

Section Dict.
Context {V : Type}.
Implicit Types (d : dict V) (k : string) (v : V).

Lemma dict_get_set_same k v d : dict_get k (dict_set k v d) = Some v.
Proof.
  induction d as [|[k' v'] rest IH]; cbn.
  - now rewrite String.eqb_refl.
  - destruct (String.eqb k' k) eqn:E; cbn; rewrite E; auto.
Qed.

Lemma dict_get_set_other k k' v d :
  k <> k' -> dict_get k' (dict_set k v d) = dict_get k' d.
Proof.
  intro Hne. induction d as [|[k0 v0] rest IH]; cbn.
  - destruct (String.eqb k k') eqn:E; [apply String.eqb_eq in E; easy | easy].
  - destruct (String.eqb k0 k) eqn:E; cbn.
    + apply String.eqb_eq in E. subst k0.
      destruct (String.eqb k k') eqn:E'; [apply String.eqb_eq in E'; easy | easy].
    + now rewrite IH.
Qed.

(** Assigning the value a key already has changes nothing. *)
Lemma dict_set_idem k v d : dict_get k d = Some v -> dict_set k v d = d.
Proof.
  induction d as [|[k' v'] rest IH]; cbn; [discriminate|].
  destruct (String.eqb k' k) eqn:E.
  - intros [= ->]. reflexivity.
  - intro H. now rewrite IH.
Qed.

Lemma dict_has_set k k' v d :
  dict_has k' d = true -> dict_has k' (dict_set k v d) = true.
Proof.
  unfold dict_has. destruct (string_dec k k') as [->|Hne].
  - now rewrite dict_get_set_same.
  - now rewrite dict_get_set_other.
Qed.

Lemma dict_has_set_same k v d : dict_has k (dict_set k v d) = true.
Proof. unfold dict_has. now rewrite dict_get_set_same. Qed.

Lemma dict_set_Forall (P : string * V -> Prop) k v d :
  (forall k0, P (k0, v)) -> Forall P d -> Forall P (dict_set k v d).
Proof.
  intros Hv. induction 1 as [|[k' v'] rest Hx Hrest IH]; cbn.
  - constructor; auto.
  - destruct (String.eqb k' k); constructor; auto.
Qed.

(** A key that is absent is appended. *)
Lemma keys_set_absent k v d :
  dict_has k d = false -> keys (dict_set k v d) = (keys d ++ [k])%list.
Proof.
  unfold dict_has.
  induction d as [|[k' v'] rest IH]; cbn; [reflexivity|].
  destruct (String.eqb k' k) eqn:E; [discriminate|].
  intro H. cbn. f_equal. now apply IH.
Qed.
End Dict.

(* ================================================================== *)
(** ** The percentage *)
(* ================================================================== *)

Lemma percent_no_denominator t m : m <= 0 -> percent t m = 0%Q.
Proof.
  intro H. unfold percent.
  destruct (0 <? m) eqn:E; [apply Z.ltb_lt in E; lia | reflexivity].
Qed.

Lemma percent_range t m :
  0 <= t <= m -> (0 <= percent t m)%Q /\ (percent t m <= 100)%Q.
Proof.
  intros [H0 H1]. unfold percent.
  destruct (0 <? m) eqn:E.
  - apply Z.ltb_lt in E. destruct m as [|p|p]; try lia.
    unfold Qle, Qdiv, Qmult, Qinv, inject_Z. cbn. split; nia.
  - split; unfold Qle; cbn; lia.
Qed.

Lemma percent_zero t m : 0 <= t <= m -> (percent t m == 0)%Q <-> t = 0.
Proof.
  intros [H0 H1]. unfold percent.
  destruct (0 <? m) eqn:E.
  - apply Z.ltb_lt in E. destruct m as [|p|p]; try lia.
    unfold Qeq, Qdiv, Qmult, Qinv, inject_Z. cbn. split; nia.
  - apply Z.ltb_ge in E. split; [lia | reflexivity].
Qed.

(* ================================================================== *)
(** ** Invariants of the aggregator *)
(* ================================================================== *)

Lemma sound_empty_frame : sound_frame empty_frame.
Proof. split; cbn; [constructor | lia]. Qed.

Lemma sound_call a f : sound_frame f -> sound_frame (call a f).
Proof. intros [H1 H2]. split; assumption. Qed.

Lemma sound_store c r f :
  0 <= fst r <= 10 -> sound_frame f -> sound_frame (store c r f).
Proof.
  intros Hr [H1 H2]. split; cbn.
  - apply dict_set_Forall; [intro; exact Hr | exact H1].
  - lia.
Qed.

Lemma sound_process code f c : sound_frame f -> sound_frame (process code f c).
Proof.
  intro H. unfold process.
  split_ifs; try assumption; apply sound_store; try apply sound_call;
    try assumption.
  - destruct (documentation_scores code) as [E|[E|E]]; rewrite E; lia.
  - pose proof (efficiency_bounds code). lia.
  - pose proof (readability_bounds code). lia.
  - pose proof (best_practices_bounds code). lia.
  - cbn. lia.
Qed.

Lemma sound_fold_process code l :
  forall f, sound_frame f -> sound_frame (fold_left (process code) l f).
Proof.
  induction l as [|c l IH]; intros f H; cbn; [assumption|].
  apply IH. now apply sound_process.
Qed.

Lemma stamp_Forall d c :
  Forall score_in_range d -> Forall score_in_range (stamp d c).
Proof.
  intro H. unfold stamp. split_ifs; [|assumption].
  apply dict_set_Forall; [intro; unfold score_in_range; cbn; lia | assumption].
Qed.

Lemma fold_stamp_Forall l :
  forall d, Forall score_in_range d ->
            Forall score_in_range (fold_left stamp l d).
Proof.
  induction l as [|c l IH]; intros d H; cbn; [assumption|].
  apply IH. now apply stamp_Forall.
Qed.

Section AggregatorInvariant.
Variable ast_parse : string -> ParseOutcome.

Lemma correctness_scores code :
  fst (evaluate_syntactic_correctness ast_parse code) = 10
  \/ fst (evaluate_syntactic_correctness ast_parse code) = 0
  \/ fst (evaluate_syntactic_correctness ast_parse code) = 2.
Proof.
  unfold evaluate_syntactic_correctness.
  destruct (ast_parse code); cbn; auto.
Qed.

Lemma sound_final_state code criteria :
  sound_frame (locals (evaluate_code_state ast_parse code criteria)).
Proof.
  assert (Hc : 0 <= fst (evaluate_syntactic_correctness ast_parse code) <= 10)
    by (destruct (correctness_scores code) as [E|[E|E]]; rewrite E; lia).
  pose proof (sound_store "correctness" _ _ Hc
                (sound_call "evaluate_syntactic_correctness" _
                   sound_empty_frame)) as Hf.
  unfold evaluate_code_state.
  destruct (mem "correctness" (valid_criteria_of criteria)).
  - destruct (fst (evaluate_syntactic_correctness ast_parse code) <? 3).
    + destruct Hf as [H1 H2]. split; cbn [locals results total max_possible].
      * now apply fold_stamp_Forall.
      * exact H2.
    + cbn [locals]. now apply sound_fold_process.
  - cbn [locals]. apply sound_fold_process, sound_empty_frame.
Qed.

(** The fields of the report, read off the final state. *)
Lemma report_fields code criteria :
  let s := evaluate_code_state ast_parse code criteria in
  let r := evaluate_code ast_parse code criteria in
  total_score r = total (locals s)
  /\ percentage r = percent (total (locals s)) (max_possible (locals s))
  /\ criteria_results r = results (locals s).
Proof.
  cbn. unfold evaluate_code, report_of.
  destruct (exit_at _); cbn; auto.
Qed.
End AggregatorInvariant.

(* ================================================================== *)
(** ** Repeated names in the list of criteria *)
(* ================================================================== *)

Lemma mem_In x l : mem x l = true <-> In x l.
Proof.
  unfold mem. rewrite existsb_exists. split.
  - intros [y [Hy E]]. apply String.eqb_eq in E. now subst.
  - intro H. exists x. split; [assumption | apply String.eqb_refl].
Qed.

Lemma mem_filter (p : string -> bool) x l :
  p x = true -> mem x (filter p l) = mem x l.
Proof.
  intro Hp. induction l as [|y l IH]; [reflexivity|].
  cbn. destruct (p y) eqn:Ey; cbn.
  - fold (mem x (filter p l)). fold (mem x l). now rewrite IH.
  - fold (mem x (filter p l)). fold (mem x l). rewrite IH.
    destruct (String.eqb x y) eqn:E; [|reflexivity].
    apply String.eqb_eq in E. congruence.
Qed.

Lemma filter_dedup_from (p : string -> bool) l :
  forall seen,
    filter p (dedup_from seen l) = dedup_from (filter p seen) (filter p l).
Proof.
  induction l as [|x l IH]; intro seen; [reflexivity|].
  cbn [dedup_from filter].
  destruct (p x) eqn:Ep.
  - cbn [dedup_from]. rewrite (mem_filter p x seen Ep).
    destruct (mem x seen).
    + apply IH.
    + cbn [filter]. rewrite Ep, IH. cbn [filter]. now rewrite Ep.
  - destruct (mem x seen).
    + apply IH.
    + cbn [filter]. rewrite Ep, IH. cbn [filter]. now rewrite Ep.
Qed.

Lemma mem_dedup_from x l :
  forall seen,
    mem x (dedup_from seen l) = negb (mem x seen) && mem x l.
Proof.
  induction l as [|y l IH]; intro seen.
  - cbn. now rewrite andb_false_r.
  - cbn [dedup_from]. destruct (mem y seen) eqn:Ey.
    + rewrite IH. change (mem x (y :: l)) with (String.eqb x y || mem x l)%bool.
      destruct (String.eqb x y) eqn:E; [|reflexivity].
      apply String.eqb_eq in E. subst y. now rewrite Ey.
    + change (mem x (y :: dedup_from (y :: seen) l))
        with (String.eqb x y || mem x (dedup_from (y :: seen) l))%bool.
      rewrite IH.
      change (mem x (y :: seen)) with (String.eqb x y || mem x seen)%bool.
      change (mem x (y :: l)) with (String.eqb x y || mem x l)%bool.
      destruct (String.eqb x y) eqn:E.
      * apply String.eqb_eq in E. subst y. now rewrite Ey.
      * reflexivity.
Qed.

Lemma mem_dedup x l : mem x (dedup l) = mem x l.
Proof. unfold dedup. now rewrite mem_dedup_from. Qed.

Lemma valid_criteria_dedup l :
  valid_criteria_of (Some (dedup l)) = dedup (valid_criteria_of (Some l)).
Proof.
  destruct l as [|x l]; [reflexivity|].
  unfold valid_criteria_of, dedup. cbn [dedup_from mem existsb].
  apply (filter_dedup_from is_criterion (x :: l) []).
Qed.

(** A loop whose turn for a name that is settled does nothing, where a
    name is settled once its turn has run and stays so: running it over a
    list or over the list without its repetitions gives the same result. *)
Section SettledTurns.
Context {D : Type}.
Variable turn : D -> string -> D.
Variable settled : D -> string -> Prop.
Hypothesis settled_noop : forall d x, settled d x -> turn d x = d.
Hypothesis settled_stays : forall d x y, settled d x -> settled (turn d y) x.
Hypothesis settled_after : forall d x, settled (turn d x) x.

Lemma fold_dedup_from l :
  forall seen d,
    (forall x, In x seen -> settled d x) ->
    fold_left turn l d = fold_left turn (dedup_from seen l) d.
Proof.
  induction l as [|x l IH]; intros seen d H; [reflexivity|].
  cbn [dedup_from fold_left].
  destruct (mem x seen) eqn:E.
  - apply mem_In in E. rewrite (settled_noop d x (H x E)). now apply IH.
  - cbn [fold_left]. apply IH. intros y [<-|Hy].
    + apply settled_after.
    + apply settled_stays. now apply H.
Qed.

Lemma fold_dedup l d : fold_left turn l d = fold_left turn (dedup l) d.
Proof. apply fold_dedup_from. intros x []. Qed.
End SettledTurns.

Lemma fold_stamp_dedup l d : fold_left stamp l d = fold_left stamp (dedup l) d.
Proof.
  apply (fold_dedup stamp
           (fun d x => x = "correctness" \/ dict_has x d = true)).
  - intros d0 x [->|H]; unfold stamp; [reflexivity|].
    rewrite H. now rewrite andb_false_r.
  - intros d0 x y [->|H]; [now left | right].
    unfold stamp. split_ifs; [now apply dict_has_set | assumption].
  - intros d0 x. unfold stamp.
    destruct (String.eqb x "correctness") eqn:E.
    + left. now apply String.eqb_eq.
    + right. cbn. destruct (dict_has x d0) eqn:Eh; cbn;
        [assumption | apply dict_has_set_same].
Qed.

Lemma fold_step_dedup code l d :
  fold_left (step code) l d = fold_left (step code) (dedup l) d.
Proof.
  apply (fold_dedup (step code)
           (fun d x => dict_get x d = Some (result_of code x)
                       \/ (x = "correctness"
                           /\ dict_has "correctness" d = true))).
  - intros d0 x [H|[-> H]]; unfold step.
    + split_ifs; [reflexivity | now apply dict_set_idem].
    + now rewrite H.
  - intros d0 x y [H|[-> H]]; unfold step.
    + left. split_ifs; [assumption|].
      destruct (string_dec y x) as [->|Hne].
      * apply dict_get_set_same.
      * now rewrite dict_get_set_other.
    + right. split; [reflexivity|].
      split_ifs; [assumption | now apply dict_has_set].
  - intros d0 x. unfold step.
    destruct (String.eqb x "correctness" && dict_has "correctness" d0) eqn:E.
    + right. apply andb_prop in E. destruct E as [E1 E2].
      apply String.eqb_eq in E1. now split.
    + left. apply dict_get_set_same.
Qed.

Lemma results_process code f c :
  results (process code f c) = step code (results f) c.
Proof.
  unfold process, step, result_of, outcome_of.
  split_ifs; reflexivity.
Qed.

Lemma results_fold_process code l :
  forall f,
    results (fold_left (process code) l f)
    = fold_left (step code) l (results f).
Proof.
  induction l as [|c l IH]; intro f; [reflexivity|].
  cbn [fold_left]. now rewrite IH, results_process.
Qed.

(** The sums after the main loop, when no turn can take the placeholder
    branch for correctness. *)
Lemma sums_fold_process code l :
  forall f,
    dict_has "correctness" (results f) = true \/ ~ In "correctness" l ->
    max_possible (fold_left (process code) l f)
    = max_possible f + 10 * Z.of_nat (turns_scored l).
Proof.
  unfold turns_scored.
  induction l as [|c l IH]; intros f H; [cbn; lia|].
  cbn [fold_left filter].
  destruct (String.eqb c "correctness") eqn:E.
  - apply String.eqb_eq in E. subst c.
    destruct H as [H|H]; [|exfalso; apply H; now left].
    unfold process at 2. rewrite H. cbn [String.eqb andb negb].
    change (String.eqb "correctness" "correctness") with true.
    cbn [andb negb]. apply IH. now left.
  - cbn [negb List.length]. rewrite IH.
    + assert (Hm : max_possible (process code f c) = max_possible f + 10).
      { unfold process. rewrite E. cbn [andb]. split_ifs; reflexivity. }
      rewrite Hm. lia.
    + destruct H as [H|H].
      * left. rewrite results_process. unfold step. rewrite E. cbn [andb].
        now apply dict_has_set.
      * right. intro Hin. apply H. now right.
Qed.

(* ================================================================== *)
(** ** The loop that stamps the criteria left after syntax errors *)
(* ================================================================== *)




(** The turns of the main loop on the five criteria that have an
    analyzer. *)
Lemma process_correctness code f :
  dict_has "correctness" (results f) = true ->
  process code f "correctness" = f.
Proof. intro H. unfold process. now rewrite H. Qed.

Lemma keys_store c r f :
  dict_has c (results f) = false ->
  keys (results (store c r f)) = (keys (results f) ++ [c])%list.
Proof. intro H. cbn [store results]. now apply keys_set_absent. Qed.

(** The check of context managers adds the same bonus to any score, keeps
    the issues and only appends to the positives. *)
Lemma context_managers_score code t :
  t_score (bp_context_managers code t)
  = t_score t
    + (if (0 <? with_count code)%nat
       then Z.min (Z.of_nat (with_count code)) 2 else 0).
Proof.
  unfold bp_context_managers.
  destruct (0 <? with_count code)%nat; cbn [award t_score]; lia.
Qed.

Lemma context_managers_issues code t :
  t_issues (bp_context_managers code t) = t_issues t.
Proof. unfold bp_context_managers. split_ifs; reflexivity. Qed.

Lemma context_managers_positives code t note :
  In note (t_positives t) ->
  In note (t_positives (bp_context_managers code t)).
Proof.
  intro H. unfold bp_context_managers. split_ifs; [|assumption].
  cbn [award t_positives]. apply in_or_app. now left.
Qed.

Lemma ratio_at_least (a b n m : Z) :
  0 < m -> 0 < b ->
  Qle_bool (a # Z.to_pos b) (inject_Z n / inject_Z m) = (a * m <=? b * n).
Proof.
  intros Hm Hb. destruct m as [|p|p]; try lia. destruct b as [|q|q]; try lia.
  set (rhs := a * Z.pos p <=? Z.pos q * n).
  unfold Qle_bool, Qdiv, Qmult, Qinv, inject_Z. cbn.
  replace (n * 1 * Z.pos q) with (Z.pos q * n) by lia.
  reflexivity.
Qed.

Lemma documentation_band_eq code :
  fst (evaluate_documentation code)
  = documentation_band (List.length (docstrings code)) (comment_count code)
      (code_lines code).
Proof.
  unfold evaluate_documentation, documentation_band, doc_ratio.
  change (3 # 10)%Q with (3 # Z.to_pos 10)%Q.
  change (15 # 100)%Q with (15 # Z.to_pos 100)%Q.
  rewrite !ratio_at_least by lia.
  split_ifs; reflexivity.
Qed.

(** *** Substrings of a returned message *)

Lemma prefix_nil s : String.prefix EmptyString s = true.
Proof. now destruct s. Qed.

Lemma prefix_app s : forall a b,
  String.prefix s a = true -> String.prefix s (a ++ b)%string = true.
Proof.
  induction s as [|c s IH]; intros a b H; [apply prefix_nil|].
  destruct a as [|c' a]; [discriminate|].
  cbn [append String.prefix] in H |- *.
  destruct (ascii_dec c c'); [now apply IH | discriminate].
Qed.

Lemma prefix_refl s : String.prefix s s = true.
Proof.
  induction s as [|c s IH]; [reflexivity|].
  cbn [String.prefix]. destruct (ascii_dec c c); [exact IH | congruence].
Qed.

Lemma contains_unfold sub s :
  contains sub s
  = (String.prefix sub s
     || match s with
        | EmptyString => false
        | String _ t => contains sub t
        end)%bool.
Proof. now destruct s. Qed.

Lemma contains_self s : contains s s = true.
Proof. rewrite contains_unfold, prefix_refl. reflexivity. Qed.

Lemma contains_app_l sub a : forall b,
  contains sub a = true -> contains sub (a ++ b)%string = true.
Proof.
  induction a as [|c a IH]; intros b H.
  - rewrite contains_unfold in H. rewrite orb_false_r in H.
    rewrite contains_unfold. now rewrite (prefix_app sub EmptyString b H).
  - rewrite contains_unfold in H.
    apply orb_prop in H. destruct H as [H|H].
    + rewrite contains_unfold.
      now rewrite (prefix_app sub (String c a) b H).
    + cbn [append]. rewrite contains_unfold.
      rewrite (IH b H). apply orb_true_r.
Qed.

Lemma contains_app_r sub a : forall b,
  contains sub b = true -> contains sub (a ++ b)%string = true.
Proof.
  induction a as [|c a IH]; intros b H; [exact H|].
  cbn [append]. rewrite contains_unfold. rewrite (IH b H). apply orb_true_r.
Qed.

(** A string of a list appears in the list joined by a separator. *)
Lemma contains_join sep x l : In x l -> contains x (join sep l) = true.
Proof.
  unfold join. induction l as [|y l IH]; intro H; [destruct H|].
  destruct l as [|z l].
  - destruct H as [->|[]]. apply contains_self.
  - cbn [String.concat]. destruct H as [->|H].
    + apply contains_app_l, contains_self.
    + apply contains_app_r, contains_app_r. now apply IH.
Qed.

(** *** The notes of the best-practices analyzer *)

Lemma str_of_nat_not_p n rest tail :
  String "p" rest <> (str_of_nat n ++ tail)%string.
Proof.
  unfold str_of_nat. destruct (Nat.to_uint n); cbn; discriminate.
Qed.

Lemma best_practices_positives code x :
  In x (t_positives (best_practices_tally code)) ->
  x = "Uses proper exception handling"
  \/ x = ("Uses context managers (" ++ str_of_nat (with_count code)
          ++ " with statements)")%string.
Proof.
  unfold best_practices_tally, bp_context_managers, bp_exception_handling,
    bp_magic_numbers, bp_global_vars, deduct, award, start_tally.
  split_ifs; cbn [t_positives app In]; intuition.
Qed.

Lemma best_practices_issues code x :
  In x (t_issues (best_practices_tally code)) ->
  (exists n, x = ("Uses " ++ str_of_nat n ++ " global variables")%string)
  \/ (exists n, x = ("Contains " ++ str_of_nat n
                     ++ " magic numbers that should be constants")%string)
  \/ x = "Uses bare except clauses without specifying exception types".
Proof.
  unfold best_practices_tally, bp_context_managers, bp_exception_handling,
    bp_magic_numbers, bp_global_vars, deduct, award, start_tally.
  split_ifs; cbn [t_issues app In]; intuition eauto.
Qed.

Lemma bare_note_is_no_positive code :
  ~ In "Uses bare except clauses without specifying exception types"
      (t_positives (best_practices_tally code)).
Proof.
  intro H. apply best_practices_positives in H.
  destruct H as [H|H]; [discriminate H|].
  cbn [append] in H. discriminate H.
Qed.

Lemma proper_note_is_no_issue code :
  ~ In "Uses proper exception handling"
      (t_issues (best_practices_tally code)).
Proof.
  intro H. apply best_practices_issues in H.
  destruct H as [[n H]|[[n H]|H]]; try discriminate H.
  cbn [append] in H. injection H as H.
  exact (str_of_nat_not_p n _ _ H).
Qed.

(** The message of the best-practices analyzer in its tiers. *)
Lemma best_practices_message code :
  let r := evaluate_best_practices code in
  let t := best_practices_tally code in
  (8 <= fst r ->
   snd r = String.append "Code follows best practices well. "
             (join ", " (t_positives t)))
  /\ (fst r < 8 ->
      snd r = String.append
                (if 5 <=? fst r
                 then "Code follows most best practices but has some issues. "
                 else "Code has several best practice issues: ")
                (join ", " (t_issues t))).
Proof.
  cbv zeta. rewrite best_practices_score. unfold evaluate_best_practices.
  destruct (Z.leb_spec 8 (t_score (best_practices_tally code))).
  - split; [reflexivity | lia].
  - split; [lia|]. intros _.
    destruct (5 <=? t_score (best_practices_tally code)); reflexivity.
Qed.

(* ================================================================== *)
(** ** The properties of the specification *)
(* ================================================================== *)

Section Claims.

  Variable ast_parse : string -> ParseOutcome.

  Local Abbreviation correctness_of code :=
    (evaluate_syntactic_correctness ast_parse code).


(** C2, as amended.  The percentage of every report lies within 0 and
    100; it is 0 whenever the accumulated [max_possible] is 0, and it is 0
    exactly when [total_score] is 0 (which also happens with a positive
    denominator). *)
Theorem C2_percentage_range code criteria :
  let s := evaluate_code_state ast_parse code criteria in
  let r := evaluate_code ast_parse code criteria in
  (0 <= percentage r)%Q /\ (percentage r <= 100)%Q
  /\ (max_possible (locals s) = 0 -> (percentage r == 0)%Q)
  /\ ((percentage r == 0)%Q <-> total_score r = 0).
Proof.
  intros s r.
  destruct (report_fields ast_parse code criteria) as [Ht [Hp _]].
  destruct (sound_final_state ast_parse code criteria) as [_ Hs].
  fold s in Ht, Hp, Hs. fold r in Ht, Hp.
  rewrite Hp, Ht.
  destruct (percent_range _ _ Hs) as [H0 H100].
  repeat split; try assumption.
  - intro Hz. rewrite percent_no_denominator by lia. reflexivity.
  - now apply percent_zero.
  - now apply percent_zero.
Qed.

(** C3, as amended.  The [criteria_results] for a list of criteria are
    those for the list without its repetitions (first occurrences kept).
    The sums are not: when the evaluation runs to its end, [max_score] is
    10 for correctness, if it is valid, and 10 more for every occurrence
    of any other valid name. *)
Theorem C3_repeated_criteria code l :
  let r := evaluate_code ast_parse code (Some l) in
  let valid := valid_criteria_of (Some l) in
  criteria_results r
  = criteria_results (evaluate_code ast_parse code (Some (dedup l)))
  /\ (exit_at (evaluate_code_state ast_parse code (Some l)) = AtEnd ->
      max_score r
      = 10 * Z.of_nat (turns_scored valid)
        + (if mem "correctness" valid then 10 else 0)).
Proof.
  intros r valid. subst r. split.
  - destruct (report_fields ast_parse code (Some l)) as [_ [_ ->]].
    destruct (report_fields ast_parse code (Some (dedup l))) as [_ [_ ->]].
    unfold evaluate_code_state.
    rewrite valid_criteria_dedup, mem_dedup. fold valid.
    destruct (mem "correctness" valid).
    + destruct (fst (correctness_of code) <? 3);
        cbn [locals results].
      * apply fold_stamp_dedup.
      * rewrite !results_fold_process. apply fold_step_dedup.
    + cbn [locals]. rewrite !results_fold_process. apply fold_step_dedup.
  - unfold evaluate_code, evaluate_code_state. fold valid.
    destruct (mem "correctness" valid) eqn:Em.
    + destruct (fst (correctness_of code) <? 3);
        cbn [exit_at]; [discriminate|].
      intros _. cbn [report_of exit_at locals max_score].
      rewrite sums_fold_process by (left; reflexivity).
      cbn [max_possible store call empty_frame]. lia.
    + intros _. cbn [report_of exit_at locals max_score].
      rewrite sums_fold_process.
      * cbn [max_possible empty_frame]. lia.
      * right. intro Hin. apply mem_In in Hin. fold valid in Hin. congruence.
Qed.

(** C4.  The penalty for inconsistent indentation is never applied: the
    scan of [evaluate_readability] starts at index 8 with a pattern
    anchored at the start of the text, so it finds no indentation at all.
    On a text whose second line is indented by two spaces the score stays
    at 7, although the line-by-line scan finds the width 2. *)
Theorem C4_indentation_penalty_unreachable :
  (forall code, indents code = [] /\ inconsistent_indent code = false)
  /\ indents_of_every_line odd_indent_code = [2%nat]
  /\ evaluate_readability odd_indent_code
     = (7, "Code has reasonable readability but could be improved. ").
Proof.
  split; [|split].
  - intro code. split; [apply indents_nil | apply inconsistent_indent_false].
  - vm_compute. reflexivity.
  - vm_compute. reflexivity.
Qed.


(** C6.  For a text that parses, a call without criteria, or with the
    empty list, gives a report whose [criteria_results] has the keys
    correctness, efficiency, readability, documentation, best_practices in
    this order, and whose [max_score] is 50. *)
Theorem C6_default_criteria code criteria :
  ast_parse code = Parsed ->
  criteria = None \/ criteria = Some [] ->
  let r := evaluate_code ast_parse code criteria in
  keys (criteria_results r)
  = ["correctness"; "efficiency"; "readability"; "documentation";
     "best_practices"]
  /\ max_score r = 50.
Proof.
  intros Hp Hc r. subst r.
  assert (Hv : valid_criteria_of criteria = DEFAULT_CRITERIA)
    by (destruct Hc as [-> | ->]; reflexivity).
  assert (Hs : correctness_of code = (10, "No syntax errors detected."))
    by (unfold evaluate_syntactic_correctness; now rewrite Hp).
  unfold evaluate_code, evaluate_code_state. rewrite Hv, Hs.
  change (mem "correctness" DEFAULT_CRITERIA) with true.
  change (fst (10, "No syntax errors detected.") <? 3) with false.
  cbv iota. unfold DEFAULT_CRITERIA. cbn [fold_left].
  rewrite process_correctness by reflexivity.
  split; reflexivity.
Qed.

(** C7, as amended.  With no code line the documentation ratio is
    computed against the denominator 1.  Such a text reaches the top band,
    score 9, exactly when the docstring pattern matches in it; with a
    comment line and no match it scores 6.  So a text made of a single
    comment line reaches the top band only through a span between triple
    quotes inside the comment, and there is such a text. *)
Theorem C7_comment_only_snippet code :
  code_lines code = 0%nat ->
  doc_ratio code
  = (inject_Z (Z.of_nat (List.length (docstrings code) + comment_count code))
     / inject_Z 1)%Q
  /\ (fst (evaluate_documentation code) = 9 <-> docstrings code <> [])
  /\ (docstrings code = [] -> (0 < comment_count code)%nat ->
      fst (evaluate_documentation code) = 6)
  /\ exists snippet,
       split_nl snippet = [snippet]
       /\ startswith "#" snippet = true
       /\ comment_count snippet = 1%nat
       /\ code_lines snippet = 0%nat
       /\ docstrings snippet <> []
       /\ fst (evaluate_documentation snippet) = 9.
Proof.
  intro H. split; [unfold doc_ratio; now rewrite H|].
  rewrite documentation_band_eq, H. unfold documentation_band.
  change (Z.of_nat (Nat.max 1 0)) with 1.
  split; [|split].
  - destruct (docstrings code) as [|d l]; cbn [List.length].
    + change (0 <? 0)%nat with false. rewrite andb_false_r.
      split; [|congruence].
      destruct (15 * 1 <=? 100 * Z.of_nat (0 + comment_count code));
        discriminate.
    + split; [discriminate|]. intros _.
      change (0 <? S (List.length l))%nat with true.
      destruct (Z.leb_spec (3 * 1)
                  (10 * Z.of_nat (S (List.length l) + comment_count code)));
        [reflexivity | lia].
  - intros -> Hc. cbn [List.length].
    change (0 <? 0)%nat with false. rewrite andb_false_r.
    destruct (Z.leb_spec (15 * 1) (100 * Z.of_nat (0 + comment_count code)));
      [reflexivity | lia].
  - exists quoting_comment.
    repeat split; try (vm_compute; reflexivity).
    vm_compute. discriminate.
Qed.

(** C8.  When the entry for code is missing or empty, [run] returns the
    error Missing code parameter with status failed and calls no analyzer;
    when it is a non-empty text, [run] returns the report of
    [evaluate_code] with status success. *)
Theorem C8_run_envelope params :
  (p_code params = None \/ p_code params = Some EmptyString ->
   run_logged ast_parse params
   = (RunFailed "Missing code parameter" "failed", []))
  /\ (forall code,
        p_code params = Some code -> code <> EmptyString ->
        run ast_parse params
        = RunSucceeded (evaluate_code ast_parse code (p_criteria params))
            "success").
Proof.
  split.
  - intros [H|H]; unfold run_logged; rewrite H; reflexivity.
  - intros code H Hne. unfold run, run_logged. rewrite H.
    destruct code; [congruence | reflexivity].
Qed.

(** C9, as amended.  In the best-practices analyzer, when the counts of
    try: and of except are equal and positive and the text holds no bare
    except:, the check of exception handling adds 1 to the score and
    appends the note Uses proper exception handling to the positives; the
    returned message holds the note when the returned score is 8 or more,
    and below 8 it is made of the issues, among which the note is not.
    When the text holds a bare except:, the check subtracts 1 and appends
    the note on bare except clauses to the issues; the returned message
    holds the note when the returned score is below 8, and from 8 on it is
    made of the positives, among which the note is not. *)
Theorem C9_exception_handling code :
  let others :=
    t_score (bp_context_managers code
               (bp_magic_numbers code (bp_global_vars code start_tally))) in
  let r := evaluate_best_practices code in
  let t := best_practices_tally code in
  (try_blocks code = except_blocks code ->
   (0 < try_blocks code)%nat ->
   contains "except:" code = false ->
   (forall t0, bp_exception_handling code t0
               = award 1 "Uses proper exception handling" t0)
   /\ fst r = others + 1
   /\ In "Uses proper exception handling" (t_positives t)
   /\ (8 <= fst r ->
       contains "Uses proper exception handling" (snd r) = true)
   /\ (fst r < 8 ->
       snd r = String.append
                 (if 5 <=? fst r
                  then "Code follows most best practices but has some issues. "
                  else "Code has several best practice issues: ")
                 (join ", " (t_issues t))
       /\ ~ In "Uses proper exception handling" (t_issues t)))
  /\ (contains "except:" code = true ->
      (forall t0, bp_exception_handling code t0
                  = deduct 1
                      "Uses bare except clauses without specifying exception types"
                      t0)
      /\ fst r = others - 1
      /\ In "Uses bare except clauses without specifying exception types"
            (t_issues t)
      /\ (fst r < 8 ->
          contains
            "Uses bare except clauses without specifying exception types"
            (snd r) = true)
      /\ (8 <= fst r ->
          snd r = String.append "Code follows best practices well. "
                    (join ", " (t_positives t))
          /\ ~ In "Uses bare except clauses without specifying exception types"
                 (t_positives t))).
Proof.
  intros others r t. subst others r t.
  destruct (best_practices_message code) as [Mhigh Mlow].
  split.
  - intros Heq Hpos Hbare.
    assert (E : forall t0, bp_exception_handling code t0
                           = award 1 "Uses proper exception handling" t0).
    { intro t0. unfold bp_exception_handling.
      rewrite <- Heq, Nat.eqb_refl, Hbare.
      apply Nat.ltb_lt in Hpos. now rewrite Hpos. }
    assert (Hin : In "Uses proper exception handling"
                    (t_positives (best_practices_tally code))).
    { unfold best_practices_tally. rewrite E.
      apply context_managers_positives. cbn [award t_positives].
      apply in_or_app. right. now left. }
    split; [exact E|]. split; [|split; [exact Hin|split]].
    + rewrite best_practices_score. unfold best_practices_tally. rewrite E.
      rewrite !context_managers_score. cbn [award t_score]. lia.
    + intro H8. rewrite (Mhigh H8).
      apply contains_app_r. now apply contains_join.
    + intro H8. split; [exact (Mlow H8) | apply proper_note_is_no_issue].
  - intro Hbare.
    assert (E : forall t0,
               bp_exception_handling code t0
               = deduct 1
                   "Uses bare except clauses without specifying exception types"
                   t0).
    { intro t0. unfold bp_exception_handling. rewrite Hbare.
      now rewrite andb_false_r. }
    assert (Hin : In "Uses bare except clauses without specifying exception types"
                    (t_issues (best_practices_tally code))).
    { unfold best_practices_tally. rewrite E.
      rewrite context_managers_issues. cbn [deduct t_issues].
      apply in_or_app. right. now left. }
    split; [exact E|]. split; [|split; [exact Hin|split]].
    + rewrite best_practices_score. unfold best_practices_tally. rewrite E.
      rewrite !context_managers_score. cbn [deduct t_score]. lia.
    + intro H8. rewrite (Mlow H8).
      apply contains_app_r. now apply contains_join.
    + intro H8. split; [exact (Mhigh H8) | apply bare_note_is_no_positive].
Qed.

(** C10.  Every score of a report is at most 10: the efficiency score is
    at most 9, the best-practices score at most 10 and the readability
    score at most 7, whatever the text. *)
Theorem C10_scores_at_most_ten code criteria :
  Forall (fun kv => CriterionResult.score (snd kv) <= 10)
         (criteria_results (evaluate_code ast_parse code criteria))
  /\ fst (evaluate_efficiency code) <= 9
  /\ fst (evaluate_best_practices code) <= 10
  /\ fst (evaluate_readability code) <= 7.
Proof.
  repeat split.
  - destruct (report_fields ast_parse code criteria) as [_ [_ ->]].
    destruct (sound_final_state ast_parse code criteria) as [H _].
    eapply Forall_impl; [|exact H].
    intros kv Hkv. apply Hkv.
  - apply efficiency_bounds.
  - apply best_practices_bounds.
  - apply readability_bounds.
Qed.

End Claims.

(* ================================================================== *)
(** ** The properties at concrete inputs *)
(* ================================================================== *)


(** A report whose percentage is 0 over a denominator of 10: the only
    criterion is readability and its score is 0. *)
Lemma C2_counterexample :
  let s := evaluate_code_state example_parser unreadable_code
             (Some ["readability"]) in
  let r := evaluate_code example_parser unreadable_code
             (Some ["readability"]) in
  ~ ((percentage r == 0)%Q <-> max_possible (locals s) = 0).
Proof.
  intros s r [H _].
  assert (Hp : (percentage r == 0)%Q) by (vm_compute; reflexivity).
  specialize (H Hp). vm_compute in H. discriminate H.
Qed.

Lemma C2_witness :
  (percentage (evaluate_code example_parser "pass" (Some ["bogus"])) == 0)%Q.
Proof.
  apply (C2_percentage_range example_parser "pass" (Some ["bogus"])).
  vm_compute. reflexivity.
Defined.

(** Efficiency requested twice: it is scored twice, 14 out of 20, against
    7 out of 10 for the list without the repetition. *)
Lemma C3_counterexample :
  let l := ["efficiency"; "efficiency"] in
  let r := evaluate_code example_parser "pass" (Some l) in
  let r' := evaluate_code example_parser "pass" (Some (dedup l)) in
  ~ (total_score r = total_score r'
     /\ max_score r = max_score r'
     /\ criteria_results r = criteria_results r').
Proof.
  intros l r r' [H _]. vm_compute in H. discriminate H.
Qed.

Lemma C3_witness :
  max_score (evaluate_code example_parser "pass"
               (Some ["efficiency"; "efficiency"]))
  = 10 * Z.of_nat (turns_scored
                     (valid_criteria_of (Some ["efficiency"; "efficiency"])))
    + (if mem "correctness"
            (valid_criteria_of (Some ["efficiency"; "efficiency"]))
       then 10 else 0).
Proof.
  apply (C3_repeated_criteria example_parser "pass"
           ["efficiency"; "efficiency"]).
  vm_compute. reflexivity.
Defined.

Lemma C6_witness :
  let r := evaluate_code example_parser "pass" None in
  keys (criteria_results r)
  = ["correctness"; "efficiency"; "readability"; "documentation";
     "best_practices"]
  /\ max_score r = 50.
Proof.
  apply (C6_default_criteria example_parser "pass" None).
  - vm_compute. reflexivity.
  - left. reflexivity.
Defined.

(** A text of one comment line, with no code line, that stays in the
    middle band. *)
Lemma C7_counterexample :
  ~ (split_nl plain_comment = [plain_comment] ->
     startswith "#" plain_comment = true ->
     comment_count plain_comment = 1%nat ->
     code_lines plain_comment = 0%nat ->
     fst (evaluate_documentation plain_comment) = 9).
Proof.
  intro H.
  assert (E : fst (evaluate_documentation plain_comment) = 9)
    by (apply H; vm_compute; reflexivity).
  vm_compute in E. discriminate E.
Qed.

Lemma C7_witness :
  fst (evaluate_documentation plain_comment) = 6
  /\ (fst (evaluate_documentation quoting_comment) = 9
      <-> docstrings quoting_comment <> []).
Proof.
  assert (H0 : code_lines plain_comment = 0%nat) by (vm_compute; reflexivity).
  assert (H1 : docstrings plain_comment = []) by (vm_compute; reflexivity).
  assert (H2 : (0 < comment_count plain_comment)%nat) by (vm_compute; lia).
  assert (H3 : code_lines quoting_comment = 0%nat)
    by (vm_compute; reflexivity).
  split.
  - exact (proj1 (proj2 (proj2 (C7_comment_only_snippet plain_comment H0)))
             H1 H2).
  - exact (proj1 (proj2 (C7_comment_only_snippet quoting_comment H3))).
Defined.

Lemma C8_witness :
  run_logged example_parser {| p_code := None; p_criteria := None |}
  = (RunFailed "Missing code parameter" "failed", [])
  /\ run example_parser {| p_code := Some "pass"; p_criteria := None |}
     = RunSucceeded (evaluate_code example_parser "pass" None) "success".
Proof.
  split.
  - apply (C8_run_envelope example_parser
             {| p_code := None; p_criteria := None |}).
    left. reflexivity.
  - apply (C8_run_envelope example_parser
             {| p_code := Some "pass"; p_criteria := None |}).
    + reflexivity.
    + discriminate.
Defined.

(** A bare handler around two with statements: the score is 8 and the
    message lists the context managers only. *)
Lemma C9_counterexample :
  ~ (contains "except:" bare_handler_with_code = true ->
     contains "Uses bare except clauses without specifying exception types"
       (snd (evaluate_best_practices bare_handler_with_code)) = true).
Proof.
  intro H.
  assert (E : contains
                "Uses bare except clauses without specifying exception types"
                (snd (evaluate_best_practices bare_handler_with_code)) = true)
    by (apply H; vm_compute; reflexivity).
  vm_compute in E. discriminate E.
Qed.

Lemma C9_witness :
  contains "Uses proper exception handling"
    (snd (evaluate_best_practices specific_handler_code)) = true
  /\ contains "Uses bare except clauses without specifying exception types"
       (snd (evaluate_best_practices bare_handler_code)) = true.
Proof.
  split.
  - pose proof (proj1 (C9_exception_handling specific_handler_code)) as H.
    assert (H1 : try_blocks specific_handler_code
                 = except_blocks specific_handler_code)
      by (vm_compute; reflexivity).
    assert (H2 : (0 < try_blocks specific_handler_code)%nat)
      by (vm_compute; lia).
    assert (H3 : contains "except:" specific_handler_code = false)
      by (vm_compute; reflexivity).
    assert (H4 : 8 <= fst (evaluate_best_practices specific_handler_code))
      by (vm_compute; discriminate).
    exact (proj1 (proj2 (proj2 (proj2 (H H1 H2 H3)))) H4).
  - pose proof (proj2 (C9_exception_handling bare_handler_code)) as H.
    assert (H1 : contains "except:" bare_handler_code = true)
      by (vm_compute; reflexivity).
    assert (H4 : fst (evaluate_best_practices bare_handler_code) < 8)
      by (vm_compute; reflexivity).
    exact (proj1 (proj2 (proj2 (proj2 (H H1)))) H4).
Defined.

(* ================================================================== *)
(** ** Remarks *)
(* ================================================================== *)

(** A comment line with no span between triple quotes stays in the middle
    band: the top band needs a docstring match. *)
Remark plain_comment_middle_band :
  evaluate_documentation plain_comment
  = (6, "Code has adequate documentation but could be improved.").
Proof. vm_compute. reflexivity. Qed.

Remark documentation_top_band_needs_docstring code :
  fst (evaluate_documentation code) = 9 -> docstrings code <> [].
Proof.
  unfold evaluate_documentation. intros H E. rewrite E in H.
  cbn [List.length] in H. change (0 <? 0)%nat with false in H.
  rewrite andb_false_r in H. revert H. split_ifs; cbn; discriminate.
Qed.

(** The notes of the check of exception handling in the returned message:
    the positives are shown from score 8 on, the issues below it. *)
Remark specific_handler_message :
  evaluate_best_practices specific_handler_code
  = (8, "Code follows best practices well. Uses proper exception handling").
Proof. vm_compute. reflexivity. Qed.

Remark bare_handler_message :
  evaluate_best_practices bare_handler_code
  = (6, "Code follows most best practices but has some issues. Uses bare except clauses without specifying exception types").
Proof. vm_compute. reflexivity. Qed.

(** A matched handler after four assignments at the top level: the
    score is 7 and the message lists the issue only. *)
Remark globals_handler_message :
  evaluate_best_practices globals_handler_code
  = (7, "Code follows most best practices but has some issues. Uses 4 global variables").
Proof. vm_compute. reflexivity. Qed.

(** The analyzers that a run calls, in order; requesting a criterion twice
    calls its analyzer twice. *)
Remark repeated_criterion_called_twice :
  snd (run_logged example_parser
         {| p_code := Some "pass";
            p_criteria := Some ["efficiency"; "efficiency"] |})
  = ["evaluate_efficiency"; "evaluate_efficiency"].
Proof. vm_compute. reflexivity. Qed.

(** The report for a text that the parser rejects, with the default
    criteria: [max_score] is 50 while the percentage is taken over 10. *)
Remark rejected_text_report :
  let s := evaluate_code_state example_parser "(" None in
  let r := evaluate_code example_parser "(" None in
  max_score r = 50 /\ max_possible (locals s) = 10
  /\ keys (criteria_results r) = DEFAULT_CRITERIA.
Proof. vm_compute. repeat split. Qed.

(* ================================================================== *)
(** ** The keys of a report *)
(* ================================================================== *)

Lemma dict_has_keys {V : Type} k (d : dict V) : dict_has k d = mem k (keys d).
Proof.
  unfold dict_has, mem, keys.
  induction d as [|[k' v'] rest IH]; cbn; [reflexivity|].
  rewrite (String.eqb_sym k k').
  destruct (String.eqb k' k); [reflexivity | exact IH].
Qed.

Lemma keys_set {V : Type} k (v : V) d :
  keys (dict_set k v d)
  = if mem k (keys d) then keys d else (keys d ++ [k])%list.
Proof.
  rewrite <- dict_has_keys. unfold dict_has, keys.
  induction d as [|[k' v'] rest IH]; cbn; [reflexivity|].
  destruct (String.eqb k' k) eqn:E; cbn; [reflexivity|].
  rewrite IH. now destruct (dict_get k rest).
Qed.

Lemma mem_app x l1 l2 : mem x (l1 ++ l2) = (mem x l1 || mem x l2)%bool.
Proof. unfold mem. apply existsb_app. Qed.

Lemma dedup_from_ext l :
  forall s1 s2, (forall x, mem x s1 = mem x s2) ->
                dedup_from s1 l = dedup_from s2 l.
Proof.
  induction l as [|x l IH]; intros s1 s2 H; [reflexivity|].
  cbn [dedup_from]. rewrite (H x). destruct (mem x s2).
  - now apply IH.
  - f_equal. apply IH. intro y.
    change (mem y (x :: s1)) with (String.eqb y x || mem y s1)%bool.
    change (mem y (x :: s2)) with (String.eqb y x || mem y s2)%bool.
    now rewrite H.
Qed.

(** A loop whose turn for a name appends the name as a key unless it is
    one already: the keys grow by the first occurrences of the new
    names. *)
Section KeyOrder.
  Context {V : Type}.
  Variable turn : dict V -> string -> dict V.
  Variable inv : dict V -> Prop.
  Hypothesis inv_turn : forall d c, inv d -> inv (turn d c).
  Hypothesis keys_turn :
    forall d c, inv d ->
      keys (turn d c)
      = if mem c (keys d) then keys d else (keys d ++ [c])%list.

Lemma keys_fold l :
  forall d, inv d ->
    keys (fold_left turn l d) = (keys d ++ dedup_from (keys d) l)%list.
Proof.
  induction l as [|c l IH]; intros d Hd.
  - cbn. now rewrite app_nil_r.
  - cbn [fold_left dedup_from].
    rewrite IH by now apply inv_turn.
    rewrite keys_turn by assumption.
    destruct (mem c (keys d)) eqn:E; [reflexivity|].
    rewrite <- app_assoc. cbn [app]. do 2 f_equal.
    apply dedup_from_ext. intro x. rewrite mem_app.
    change (mem x [c]) with (String.eqb x c || false)%bool.
    change (mem x (c :: keys d)) with (String.eqb x c || mem x (keys d))%bool.
    rewrite orb_false_r. apply orb_comm.
Qed.
End KeyOrder.

Lemma keys_step code d c :
  keys (step code d c)
  = if mem c (keys d) then keys d else (keys d ++ [c])%list.
Proof.
  unfold step.
  destruct (String.eqb c "correctness" && dict_has "correctness" d) eqn:E.
  - apply andb_prop in E. destruct E as [E1 E2].
    apply String.eqb_eq in E1. subst c.
    rewrite dict_has_keys in E2. now rewrite E2.
  - apply keys_set.
Qed.

Lemma keys_stamp d c :
  mem "correctness" (keys d) = true ->
  keys (stamp d c)
  = if mem c (keys d) then keys d else (keys d ++ [c])%list.
Proof.
  intro H. unfold stamp. rewrite dict_has_keys.
  destruct (String.eqb c "correctness") eqn:E; cbn [negb andb].
  - apply String.eqb_eq in E. subst c. now rewrite H.
  - destruct (mem c (keys d)) eqn:Em; cbn [negb]; [reflexivity|].
    rewrite keys_set. now rewrite Em.
Qed.

Lemma stamp_keeps_correctness d c :
  mem "correctness" (keys d) = true ->
  mem "correctness" (keys (stamp d c)) = true.
Proof.
  intro H. rewrite keys_stamp by assumption.
  destruct (mem c (keys d)); [assumption|].
  rewrite mem_app. now rewrite H.
Qed.

Lemma In_dedup x l : In x (dedup l) <-> In x l.
Proof. rewrite <- !mem_In. now rewrite mem_dedup. Qed.

Lemma NoDup_dedup_from l : forall seen, NoDup (dedup_from seen l).
Proof.
  induction l as [|x l IH]; intro seen; cbn [dedup_from]; [constructor|].
  destruct (mem x seen) eqn:E; [apply IH|].
  constructor; [|apply IH].
  intro Hin. apply mem_In in Hin. rewrite mem_dedup_from in Hin.
  change (mem x (x :: seen)) with (String.eqb x x || mem x seen)%bool in Hin.
  now rewrite String.eqb_refl in Hin.
Qed.

Lemma dedup_from_skip x l :
  forall seen,
    dedup_from (x :: seen) l
    = dedup_from seen (filter (fun c => negb (String.eqb c x)) l).
Proof.
  induction l as [|y l IH]; intro seen; [reflexivity|].
  cbn [dedup_from filter].
  change (mem y (x :: seen)) with (String.eqb y x || mem y seen)%bool.
  destruct (String.eqb y x) eqn:E; cbn [orb negb]; [apply IH|].
  cbn [dedup_from]. destruct (mem y seen); [apply IH|].
  f_equal. rewrite <- IH. apply dedup_from_ext. intro z.
  change (mem z (y :: x :: seen))
    with (String.eqb z y || (String.eqb z x || mem z seen))%bool.
  change (mem z (x :: y :: seen))
    with (String.eqb z x || (String.eqb z y || mem z seen))%bool.
  now destruct (String.eqb z y), (String.eqb z x).
Qed.

Section ReportKeys.
Variable ast_parse : string -> ParseOutcome.

(** The keys of [criteria_results], for every parser behaviour, text and
    argument. *)
Lemma keys_of_report code criteria :
  keys (criteria_results (evaluate_code ast_parse code criteria))
  = dedup (reported (valid_criteria_of criteria)).
Proof.
  destruct (report_fields ast_parse code criteria) as [_ [_ ->]].
  unfold evaluate_code_state, reported.
  destruct (mem "correctness" (valid_criteria_of criteria)) eqn:Em.
  - destruct (fst (evaluate_syntactic_correctness ast_parse code) <? 3);
      cbn [locals results].
    + rewrite (keys_fold stamp (fun d => mem "correctness" (keys d) = true)
                 stamp_keeps_correctness keys_stamp)
        by reflexivity.
      reflexivity.
    + rewrite results_fold_process.
      rewrite (keys_fold (step code) (fun _ => True)
                 (fun _ _ _ => I) (fun d c _ => keys_step code d c))
        by exact I.
      reflexivity.
  - cbn [locals]. rewrite results_fold_process.
    rewrite (keys_fold (step code) (fun _ => True)
               (fun _ _ _ => I) (fun d c _ => keys_step code d c))
      by exact I.
    reflexivity.
Qed.

(** X1.  The keys of [criteria_results] are the valid names in the order
    of their first occurrence in the request, except that correctness,
    when it is requested, comes first wherever it stands in the request. *)
Theorem X1_order_of_results code criteria :
  let valid := valid_criteria_of criteria in
  let ks := keys (criteria_results (evaluate_code ast_parse code criteria)) in
  (mem "correctness" valid = true ->
   ks = "correctness"
        :: dedup (filter (fun c => negb (String.eqb c "correctness")) valid))
  /\ (mem "correctness" valid = false -> ks = dedup valid).
Proof.
  intros valid ks. subst ks. rewrite keys_of_report. fold valid.
  unfold reported. split; intro H; rewrite H; [|reflexivity].
  unfold dedup. cbn [dedup_from mem existsb]. f_equal.
  apply dedup_from_skip.
Qed.

End ReportKeys.

(* ================================================================== *)
(** ** The three ways through [evaluate_code] *)
(* ================================================================== *)

Lemma totals_fold_process code l :
  forall f,
    dict_has "correctness" (results f) = true \/ ~ In "correctness" l ->
    total (fold_left (process code) l f) = total f + contributions code l.
Proof.
  induction l as [|c l IH]; intros f H; [cbn; lia|].
  cbn [fold_left contributions fold_right].
  fold (contributions code l).
  destruct (String.eqb c "correctness") eqn:E.
  - apply String.eqb_eq in E. subst c.
    destruct H as [H|H]; [|exfalso; apply H; now left].
    rewrite process_correctness by assumption.
    rewrite IH by now left.
    unfold contribution. change (String.eqb "correctness" "correctness") with true.
    cbv iota. lia.
  - rewrite IH.
    + assert (Ht : total (process code f c) = total f + contribution code c).
      { unfold process, contribution, outcome_of. rewrite E. cbn [andb].
        split_ifs; reflexivity. }
      rewrite Ht. lia.
    + destruct H as [H|H].
      * left. rewrite results_process. unfold step. rewrite E. cbn [andb].
        now apply dict_has_set.
      * right. intro Hin. apply H. now right.
Qed.

Lemma invoked_fold_process code l :
  forall f,
    dict_has "correctness" (results f) = true \/ ~ In "correctness" l ->
    invoked (fold_left (process code) l f)
    = (invoked f ++ flat_map analyzer_calls l)%list.
Proof.
  induction l as [|c l IH]; intros f H; [cbn; now rewrite app_nil_r|].
  cbn [fold_left flat_map].
  destruct (String.eqb c "correctness") eqn:E.
  - apply String.eqb_eq in E. subst c.
    destruct H as [H|H]; [|exfalso; apply H; now left].
    rewrite process_correctness by assumption.
    rewrite IH by now left. reflexivity.
  - rewrite IH.
    + assert (Hi : invoked (process code f c)
                   = (invoked f ++ analyzer_calls c)%list).
      { unfold process, analyzer_calls. rewrite E. cbn [andb].
        split_ifs; cbn [store call invoked]; try reflexivity.
        now rewrite app_nil_r. }
      rewrite Hi. now rewrite app_assoc.
    + destruct H as [H|H].
      * left. rewrite results_process. unfold step. rewrite E. cbn [andb].
        now apply dict_has_set.
      * right. intro Hin. apply H. now right.
Qed.

Section Ways.
Variable ast_parse : string -> ParseOutcome.
Variables (code : string) (criteria : option (list string)).

Let valid := valid_criteria_of criteria.
Let verdict := evaluate_syntactic_correctness ast_parse code.
Let s := evaluate_code_state ast_parse code criteria.
Let r := evaluate_code ast_parse code criteria.

(** Correctness requested and scored below 3. *)
Lemma way_after_syntax_errors :
  mem "correctness" valid = true -> fst verdict < 3 ->
  total_score r = fst verdict
  /\ max_score r = 10 * Z.of_nat (List.length valid)
  /\ max_possible (locals s) = 10
  /\ summary r = "Code has syntax errors that need to be fixed before other aspects can be evaluated."
  /\ criteria_results r
     = fold_left stamp valid [("correctness", entry_of verdict)]
  /\ invoked (locals s) = ["evaluate_syntactic_correctness"].
Proof.
  intros Hm Hlow. apply Z.ltb_lt in Hlow.
  subst r s. unfold evaluate_code, evaluate_code_state.
  fold valid. fold verdict. rewrite Hm, Hlow.
  cbn [report_of exit_at locals valid_criteria total_score max_score summary
       criteria_results results total max_possible invoked store call
       empty_frame dict_set app].
  repeat split. lia.
Qed.

(** Correctness requested and scored 3 or more. *)
Lemma way_to_the_end_with_correctness :
  mem "correctness" valid = true -> 3 <= fst verdict ->
  total_score r = fst verdict + contributions code valid
  /\ max_score r = 10 * Z.of_nat (turns_scored valid) + 10
  /\ max_possible (locals s) = max_score r
  /\ summary r = summary_of (percentage r)
  /\ criteria_results r
     = fold_left (step code) valid [("correctness", entry_of verdict)]
  /\ invoked (locals s)
     = "evaluate_syntactic_correctness" :: flat_map analyzer_calls valid.
Proof.
  intros Hm Hhigh. apply Z.ltb_ge in Hhigh.
  subst r s. unfold evaluate_code, evaluate_code_state.
  fold valid. fold verdict. rewrite Hm, Hhigh.
  cbn [report_of exit_at locals total_score max_score summary percentage
       criteria_results].
  rewrite totals_fold_process, sums_fold_process, results_fold_process,
    invoked_fold_process by (left; reflexivity).
  cbn [results total max_possible invoked store call empty_frame dict_set app].
  repeat split. lia.
Qed.

(** Correctness not requested. *)
Lemma way_to_the_end_without_correctness :
  mem "correctness" valid = false ->
  total_score r = contributions code valid
  /\ max_score r = 10 * Z.of_nat (turns_scored valid)
  /\ max_possible (locals s) = max_score r
  /\ summary r = summary_of (percentage r)
  /\ criteria_results r = fold_left (step code) valid []
  /\ invoked (locals s) = flat_map analyzer_calls valid.
Proof.
  intros Hm.
  assert (Hn : ~ In "correctness" valid)
    by (intro Hin; apply mem_In in Hin; congruence).
  subst r s. unfold evaluate_code, evaluate_code_state.
  fold valid. rewrite Hm.
  cbn [report_of exit_at locals total_score max_score summary percentage
       criteria_results].
  rewrite totals_fold_process, sums_fold_process, results_fold_process,
    invoked_fold_process by (right; exact Hn).
  cbn [results total max_possible invoked empty_frame app].
  repeat split.
Qed.

End Ways.

(* ================================================================== *)
(** ** Entries of a report *)
(* ================================================================== *)

Lemma step_keeps_entry code d x y :
  dict_get x d = Some (result_of code x) ->
  dict_get x (step code d y) = Some (result_of code x).
Proof.
  intro H. unfold step. split_ifs; [assumption|].
  destruct (string_dec y x) as [->|Hne].
  - apply dict_get_set_same.
  - now rewrite dict_get_set_other.
Qed.

Lemma fold_step_keeps_entry code l :
  forall d x,
    dict_get x d = Some (result_of code x) ->
    dict_get x (fold_left (step code) l d) = Some (result_of code x).
Proof.
  induction l as [|c l IH]; intros d x H; [assumption|].
  cbn [fold_left]. apply IH. now apply step_keeps_entry.
Qed.

Lemma fold_step_entry code l :
  forall d c,
    In c l -> c <> "correctness" ->
    dict_get c (fold_left (step code) l d) = Some (result_of code c).
Proof.
  induction l as [|x l IH]; intros d c Hin Hne; [destruct Hin|].
  cbn [fold_left]. destruct Hin as [->|Hin]; [|now apply IH].
  apply fold_step_keeps_entry. unfold step.
  apply String.eqb_neq in Hne. rewrite Hne. cbn [andb].
  apply dict_get_set_same.
Qed.

(** The first item stays the first one, with its value, as long as no
    turn assigns to its key. *)
Lemma fold_step_head code l :
  forall v rest,
    exists rest',
      fold_left (step code) l (("correctness", v) :: rest)
      = ("correctness", v) :: rest'.
Proof.
  induction l as [|c l IH]; intros v rest; [now exists rest|].
  cbn [fold_left]. unfold step at 2.
  destruct (String.eqb c "correctness") eqn:E.
  - unfold dict_has. cbn [dict_get andb].
    change (String.eqb "correctness" "correctness") with true. cbv iota.
    apply IH.
  - cbn [andb dict_set].
    rewrite (String.eqb_sym "correctness" c), E. apply IH.
Qed.

Lemma fold_stamp_head l :
  forall v rest,
    exists rest',
      fold_left stamp l (("correctness", v) :: rest)
      = ("correctness", v) :: rest'.
Proof.
  induction l as [|c l IH]; intros v rest; [now exists rest|].
  cbn [fold_left]. unfold stamp at 2.
  destruct (String.eqb c "correctness") eqn:E; cbn [negb andb]; [apply IH|].
  destruct (dict_has c (("correctness", v) :: rest)); cbn [negb]; [apply IH|].
  cbn [dict_set]. rewrite (String.eqb_sym "correctness" c), E. apply IH.
Qed.

Section Entries.
Variable ast_parse : string -> ParseOutcome.

(** X2.  A name is a key of [criteria_results] exactly when it is in the
    request (or in the default list, for an absent or empty request) and in
    the registry; no key is repeated. *)
Theorem X2_reported_names code criteria :
  let ks := keys (criteria_results (evaluate_code ast_parse code criteria)) in
  (forall c, In c ks <-> In c (valid_criteria_of criteria))
  /\ (forall c, In c ks -> is_criterion c = true)
  /\ NoDup ks.
Proof.
  intro ks. subst ks. rewrite keys_of_report.
  assert (H : forall c, In c (dedup (reported (valid_criteria_of criteria)))
                        <-> In c (valid_criteria_of criteria)).
  { intro c. rewrite In_dedup. unfold reported.
    destruct (mem "correctness" (valid_criteria_of criteria)) eqn:E;
      [|reflexivity].
    apply mem_In in E. split; [|now right].
    intros [<-|Hc]; assumption. }
  split; [exact H|]. split.
  - intros c Hc. apply H in Hc. unfold valid_criteria_of in Hc.
    apply filter_In in Hc. apply Hc.
  - apply NoDup_dedup_from.
Qed.

(** X3.  When the evaluation runs to its end, the entry of every valid
    name other than correctness is the result of its own analyzer on the
    text, or the placeholder with score 5 for a name without analyzer,
    whatever else is requested and in whatever order. *)
Theorem X3_entries_are_independent code criteria c :
  mem "correctness" (valid_criteria_of criteria) = false
  \/ 3 <= fst (evaluate_syntactic_correctness ast_parse code) ->
  In c (valid_criteria_of criteria) ->
  c <> "correctness" ->
  dict_get c (criteria_results (evaluate_code ast_parse code criteria))
  = Some (entry_of (outcome_of code c)).
Proof.
  intros Hway Hin Hne.
  destruct (mem "correctness" (valid_criteria_of criteria)) eqn:Em.
  - destruct Hway as [Hway|Hway]; [discriminate|].
    destruct (way_to_the_end_with_correctness ast_parse code criteria Em Hway)
      as (_ & _ & _ & _ & -> & _).
    now apply fold_step_entry.
  - destruct (way_to_the_end_without_correctness ast_parse code criteria Em)
      as (_ & _ & _ & _ & -> & _).
    now apply fold_step_entry.
Qed.

(** X4.  When correctness is requested, its entry is the first of
    [criteria_results] and holds the result of the syntax analyzer,
    wherever correctness stands in the request and whatever the score. *)
Theorem X4_correctness_first code criteria :
  In "correctness" (valid_criteria_of criteria) ->
  hd_error (criteria_results (evaluate_code ast_parse code criteria))
  = Some ("correctness",
          entry_of (evaluate_syntactic_correctness ast_parse code)).
Proof.
  intro Hin. apply mem_In in Hin.
  destruct (Z.lt_ge_cases
              (fst (evaluate_syntactic_correctness ast_parse code)) 3)
    as [Hlow|Hhigh].
  - destruct (way_after_syntax_errors ast_parse code criteria Hin Hlow)
      as (_ & _ & _ & _ & -> & _).
    destruct (fold_stamp_head (valid_criteria_of criteria)
                (entry_of (evaluate_syntactic_correctness ast_parse code)) [])
      as [rest' ->].
    reflexivity.
  - destruct (way_to_the_end_with_correctness ast_parse code criteria
                Hin Hhigh) as (_ & _ & _ & _ & -> & _).
    destruct (fold_step_head code (valid_criteria_of criteria)
                (entry_of (evaluate_syntactic_correctness ast_parse code)) [])
      as [rest' ->].
    reflexivity.
Qed.

End Entries.

(* ================================================================== *)
(** ** Sums of a report *)
(* ================================================================== *)

Lemma dict_set_absent {V : Type} k (v : V) d :
  dict_has k d = false -> dict_set k v d = (d ++ [(k, v)])%list.
Proof.
  unfold dict_has.
  induction d as [|[k' v'] rest IH]; cbn; [reflexivity|].
  destruct (String.eqb k' k); [discriminate|].
  intro H. f_equal. now apply IH.
Qed.

Lemma dict_has_set_other {V : Type} k k' (v : V) d :
  k <> k' -> dict_has k' (dict_set k v d) = dict_has k' d.
Proof. intro H. unfold dict_has. now rewrite dict_get_set_other. Qed.

(** With no name repeated, the loops only append. *)
Section AppendingTurns.
  Variable turn : dict CriterionResult.t -> string -> dict CriterionResult.t.
  Variable value : string -> CriterionResult.t.
  Hypothesis turn_correctness :
    forall d, dict_has "correctness" d = true -> turn d "correctness" = d.
  Hypothesis turn_other :
    forall d c, c <> "correctness" -> dict_has c d = false ->
                turn d c = dict_set c (value c) d.

Lemma fold_appends l :
  forall d,
    NoDup l ->
    (forall c, In c l -> c <> "correctness" -> dict_has c d = false) ->
    (In "correctness" l -> dict_has "correctness" d = true) ->
    fold_left turn l d
    = (d ++ map (fun c => (c, value c))
              (filter (fun c => negb (String.eqb c "correctness")) l))%list.
Proof.
  induction l as [|x l IH]; intros d Hnd Hfresh Hcor.
  - cbn. now rewrite app_nil_r.
  - inversion Hnd as [|? ? Hx Hl]; subst. cbn [fold_left filter].
    destruct (String.eqb x "correctness") eqn:E; cbn [negb].
    + apply String.eqb_eq in E. subst x.
      rewrite turn_correctness by (apply Hcor; now left).
      apply IH; [assumption | |].
      * intros c Hc. apply Hfresh. now right.
      * intros _. apply Hcor. now left.
    + apply String.eqb_neq in E.
      assert (Hd : dict_has x d = false) by (apply Hfresh; [now left | exact E]).
      rewrite turn_other by assumption.
      rewrite IH; [| assumption | |].
      * rewrite dict_set_absent by assumption.
        rewrite <- app_assoc. reflexivity.
      * intros c Hc Hne.
        rewrite dict_has_set_other by (intros ->; contradiction).
        apply Hfresh; [now right | exact Hne].
      * intro Hc. apply dict_has_set. apply Hcor. now right.
Qed.
End AppendingTurns.

Lemma sum_scores_app (d1 d2 : dict CriterionResult.t) :
  sum_scores (d1 ++ d2)%list = sum_scores d1 + sum_scores d2.
Proof.
  unfold sum_scores. induction d1 as [|kv d1 IH]; cbn; [reflexivity|].
  rewrite IH. lia.
Qed.

Lemma sum_scores_results code l :
  sum_scores (map (fun c => (c, result_of code c))
                (filter (fun c => negb (String.eqb c "correctness")) l))
  = contributions code l.
Proof.
  induction l as [|c l IH]; [reflexivity|].
  cbn [filter contributions fold_right]. fold (contributions code l).
  unfold contribution at 1.
  destruct (String.eqb c "correctness"); cbn [negb]; [exact IH|].
  cbn [map sum_scores fold_right snd result_of CriterionResult.score].
  fold (sum_scores
          (map (fun c => (c, result_of code c))
             (filter (fun c => negb (String.eqb c "correctness")) l))).
  now rewrite IH.
Qed.

Lemma sum_scores_stamps l :
  sum_scores (map (fun c => (c, not_evaluated)) l) = 0.
Proof. induction l as [|c l IH]; [reflexivity|]. cbn. exact IH. Qed.

Lemma turns_scored_without l :
  ~ In "correctness" l -> turns_scored l = List.length l.
Proof.
  unfold turns_scored. induction l as [|c l IH]; intro H; [reflexivity|].
  cbn [filter]. destruct (String.eqb c "correctness") eqn:E.
  - apply String.eqb_eq in E. subst c. exfalso. apply H. now left.
  - cbn. f_equal. apply IH. intro Hin. apply H. now right.
Qed.

Lemma turns_scored_with l :
  NoDup l -> In "correctness" l -> List.length l = S (turns_scored l).
Proof.
  unfold turns_scored. induction l as [|c l IH]; intros Hnd Hin;
    [destruct Hin|].
  inversion Hnd as [|? ? Hc Hl]; subst. cbn [filter].
  destruct (String.eqb c "correctness") eqn:E; cbn [negb List.length].
  - apply String.eqb_eq in E. subst c. f_equal. symmetry.
    now apply turns_scored_without.
  - f_equal. apply IH; [assumption|].
    destruct Hin as [->|Hin]; [|assumption].
    now rewrite String.eqb_refl in E.
Qed.

Lemma step_correctness code d :
  dict_has "correctness" d = true -> step code d "correctness" = d.
Proof. intro H. unfold step. now rewrite H. Qed.

Lemma step_other code d c :
  c <> "correctness" -> dict_has c d = false ->
  step code d c = dict_set c (result_of code c) d.
Proof.
  intros H _. unfold step. apply String.eqb_neq in H. now rewrite H.
Qed.

Lemma stamp_correctness d :
  dict_has "correctness" d = true -> stamp d "correctness" = d.
Proof. intros _. reflexivity. Qed.

Lemma stamp_other d c :
  c <> "correctness" -> dict_has c d = false ->
  stamp d c = dict_set c not_evaluated d.
Proof.
  intros H Hd. unfold stamp. apply String.eqb_neq in H. now rewrite H, Hd.
Qed.

Lemma correctness_alone_fresh (v : CriterionResult.t) c :
  c <> "correctness" -> dict_has c [("correctness", v)] = false.
Proof.
  intro H. unfold dict_has. cbn [dict_get].
  destruct (String.eqb "correctness" c) eqn:E; [|reflexivity].
  apply String.eqb_eq in E. congruence.
Qed.

Section Sums.
Variable ast_parse : string -> ParseOutcome.

(** X5.  When no valid name is repeated, the sums agree with the entries:
    [total_score] is the sum of the scores of [criteria_results] and
    [max_score] is 10 times the number of its entries, also after syntax
    errors. *)
Theorem X5_sums_match_entries code criteria :
  NoDup (valid_criteria_of criteria) ->
  let r := evaluate_code ast_parse code criteria in
  total_score r = sum_scores (criteria_results r)
  /\ max_score r = 10 * Z.of_nat (List.length (criteria_results r)).
Proof.
  intros Hnd r. subst r.
  set (valid := valid_criteria_of criteria) in *.
  set (verdict := evaluate_syntactic_correctness ast_parse code).
  destruct (mem "correctness" valid) eqn:Em.
  - assert (Hin : In "correctness" valid) by now apply mem_In.
    pose proof (turns_scored_with valid Hnd Hin) as Hlen.
    destruct (Z.lt_ge_cases (fst verdict) 3) as [Hlow|Hhigh].
    + destruct (way_after_syntax_errors ast_parse code criteria Em Hlow)
        as (-> & -> & _ & _ & -> & _).
      fold valid. fold verdict.
      rewrite (fold_appends stamp (fun _ => not_evaluated)
                 stamp_correctness stamp_other valid _ Hnd)
        by (intros; first [now apply correctness_alone_fresh | reflexivity]).
      rewrite sum_scores_app, sum_scores_stamps, length_app, length_map.
      fold (turns_scored valid). cbn [sum_scores fold_right snd entry_of
        CriterionResult.score List.length].
      split; lia.
    + destruct (way_to_the_end_with_correctness ast_parse code criteria
                  Em Hhigh) as (-> & -> & _ & _ & -> & _).
      fold valid. fold verdict.
      rewrite (fold_appends (step code) (result_of code)
                 (step_correctness code) (step_other code) valid _ Hnd)
        by (intros; first [now apply correctness_alone_fresh | reflexivity]).
      rewrite sum_scores_app, sum_scores_results, length_app, length_map.
      fold (turns_scored valid). cbn [sum_scores fold_right snd entry_of
        CriterionResult.score List.length].
      split; lia.
  - assert (Hnin : ~ In "correctness" valid)
      by (intro Hin; apply mem_In in Hin; congruence).
    destruct (way_to_the_end_without_correctness ast_parse code criteria Em)
      as (-> & -> & _ & _ & -> & _).
    fold valid.
    rewrite (fold_appends (step code) (result_of code)
               (step_correctness code) (step_other code) valid _ Hnd)
      by (intros; try reflexivity; contradiction).
    cbn [app]. rewrite sum_scores_results, length_map.
    fold (turns_scored valid). split; lia.
Qed.

End Sums.

(* ================================================================== *)
(** ** Bounds, order of the request, summary *)
(* ================================================================== *)

Lemma fold_step_Forall code (P : string * CriterionResult.t -> Prop) l :
  (forall k c, P (k, result_of code c)) ->
  forall d, Forall P d -> Forall P (fold_left (step code) l d).
Proof.
  intro HP. induction l as [|c l IH]; intros d H; [assumption|].
  cbn [fold_left]. apply IH. unfold step. split_ifs; [assumption|].
  apply dict_set_Forall; [intro; apply HP | assumption].
Qed.

Lemma fold_stamp_Forall_gen (P : string * CriterionResult.t -> Prop) l :
  (forall k, P (k, not_evaluated)) ->
  forall d, Forall P d -> Forall P (fold_left stamp l d).
Proof.
  intro HP. induction l as [|c l IH]; intros d H; [assumption|].
  cbn [fold_left]. apply IH. unfold stamp. split_ifs; [|assumption].
  apply dict_set_Forall; assumption.
Qed.

Lemma filter_Permutation (p : string -> bool) l l' :
  Permutation l l' -> Permutation (filter p l) (filter p l').
Proof.
  induction 1 as [|x l l' H IH|x y l|l l' l'' H1 IH1 H2 IH2]; cbn.
  - constructor.
  - destruct (p x); [now constructor | assumption].
  - destruct (p x), (p y); try apply Permutation_refl. apply perm_swap.
  - now apply Permutation_trans with (filter p l').
Qed.

Lemma valid_criteria_Permutation l l' :
  Permutation l l' ->
  Permutation (valid_criteria_of (Some l)) (valid_criteria_of (Some l')).
Proof.
  intro H. destruct l as [|x l].
  - apply Permutation_nil in H. subst l'. apply Permutation_refl.
  - destruct l' as [|x' l'].
    + apply Permutation_sym, Permutation_nil in H. discriminate.
    + unfold valid_criteria_of. now apply filter_Permutation.
Qed.

Lemma contributions_Permutation code l l' :
  Permutation l l' -> contributions code l = contributions code l'.
Proof.
  unfold contributions.
  induction 1 as [|x l l' H IH|x y l|l l' l'' H1 IH1 H2 IH2]; cbn; lia.
Qed.

Lemma turns_scored_Permutation l l' :
  Permutation l l' -> turns_scored l = turns_scored l'.
Proof.
  intro H. unfold turns_scored.
  apply Permutation_length. now apply filter_Permutation.
Qed.

Lemma mem_Permutation x l l' : Permutation l l' -> mem x l = mem x l'.
Proof.
  intro H. destruct (mem x l) eqn:E, (mem x l') eqn:E'; try reflexivity.
  - apply mem_In in E. apply (Permutation_in _ H) in E.
    apply mem_In in E. congruence.
  - apply mem_In in E'. apply (Permutation_in _ (Permutation_sym H)) in E'.
    apply mem_In in E'. congruence.
Qed.

Lemma Qle_bool_percent k t m :
  0 < m -> Qle_bool (inject_Z k) (percent t m) = (k * m <=? 100 * t).
Proof.
  intro Hm. unfold percent.
  destruct (0 <? m) eqn:E; [|apply Z.ltb_ge in E; lia].
  destruct m as [|p|p]; try lia.
  set (rhs := k * Z.pos p <=? 100 * t).
  unfold Qle_bool, Qdiv, Qmult, Qinv, inject_Z. cbn.
  rewrite Pos.mul_1_r.
  replace (t * 1 * 100 * 1) with (100 * t) by lia.
  reflexivity.
Qed.

Lemma summary_tier t m : 0 < m -> summary_of (percent t m) = tier t m.
Proof.
  intro Hm. unfold summary_of, tier.
  change 80%Q with (inject_Z 80). change 60%Q with (inject_Z 60).
  change 40%Q with (inject_Z 40).
  rewrite !Qle_bool_percent by assumption.
  destruct (Z.leb_spec (80 * m) (100 * t)), (Z.leb_spec (4 * m) (5 * t));
    try lia; try reflexivity.
  destruct (Z.leb_spec (60 * m) (100 * t)), (Z.leb_spec (3 * m) (5 * t));
    try lia; try reflexivity.
  destruct (Z.leb_spec (40 * m) (100 * t)), (Z.leb_spec (2 * m) (5 * t));
    try lia; reflexivity.
Qed.

Section Bounds.
Variable ast_parse : string -> ParseOutcome.

Lemma max_score_zero_iff code criteria :
  max_score (evaluate_code ast_parse code criteria) = 0
  <-> valid_criteria_of criteria = [].
Proof.
  set (valid := valid_criteria_of criteria).
  destruct (mem "correctness" valid) eqn:Em.
  - assert (Hin : In "correctness" valid) by now apply mem_In.
    assert (Hne : valid <> []) by (intros E; rewrite E in Hin; destruct Hin).
    assert (Hlen : (1 <= List.length valid)%nat)
      by (destruct valid; [congruence | cbn; lia]).
    destruct (Z.lt_ge_cases
                (fst (evaluate_syntactic_correctness ast_parse code)) 3)
      as [Hlow|Hhigh].
    + destruct (way_after_syntax_errors ast_parse code criteria Em Hlow)
        as (_ & E & _).
      fold valid in E. rewrite E. split; [lia | contradiction].
    + destruct (way_to_the_end_with_correctness ast_parse code criteria
                  Em Hhigh) as (_ & E & _).
      fold valid in E. rewrite E. split; [lia | contradiction].
  - assert (Hnin : ~ In "correctness" valid)
      by (intro Hin; apply mem_In in Hin; congruence).
    destruct (way_to_the_end_without_correctness ast_parse code criteria Em)
      as (_ & E & _).
    fold valid in E. rewrite (turns_scored_without valid Hnin) in E.
    rewrite E. split.
    + intro H. destruct valid; [reflexivity | cbn in H; lia].
    + intros ->. reflexivity.
Qed.

(** X6.  In every report [total_score] lies between 0 and [max_score],
    every entry has a score of 0 at least and a maximum of 10, and
    [max_score] is 0 exactly when no requested name is in the registry. *)
Theorem X6_report_bounds code criteria :
  let r := evaluate_code ast_parse code criteria in
  0 <= total_score r <= max_score r
  /\ Forall (fun kv => 0 <= CriterionResult.score (snd kv)
                       /\ CriterionResult.max_score (snd kv) = 10)
            (criteria_results r)
  /\ (max_score r = 0 <-> valid_criteria_of criteria = []).
Proof.
  intro r. subst r.
  set (valid := valid_criteria_of criteria).
  set (verdict := evaluate_syntactic_correctness ast_parse code).
  assert (Hv : 0 <= fst verdict <= 10)
    by (destruct (correctness_scores ast_parse code) as [E|[E|E]];
        fold verdict in E; rewrite E; lia).
  destruct (sound_final_state ast_parse code criteria) as [Hsc Hs].
  destruct (report_fields ast_parse code criteria) as [Ht [_ Hr]].
  cbv zeta in Ht, Hr.
  assert (Hshape :
            Forall (fun kv => 0 <= CriterionResult.score (snd kv))
              (criteria_results (evaluate_code ast_parse code criteria))).
  { rewrite Hr. eapply Forall_impl; [|exact Hsc]. intros kv H. apply H. }
  assert (Hten :
            Forall (fun kv => CriterionResult.max_score (snd kv) = 10)
              (criteria_results (evaluate_code ast_parse code criteria))
            /\ 0 <= total_score (evaluate_code ast_parse code criteria)
                <= max_score (evaluate_code ast_parse code criteria)).
  { destruct (mem "correctness" valid) eqn:Em.
    - assert (Hin : In "correctness" valid) by now apply mem_In.
      assert (Hlen : (1 <= List.length valid)%nat)
        by (destruct valid; [destruct Hin | cbn; lia]).
      destruct (Z.lt_ge_cases (fst verdict) 3) as [Hlow|Hhigh].
      + destruct (way_after_syntax_errors ast_parse code criteria Em Hlow)
          as (Et & Em' & _ & _ & Er & _).
        fold valid in Em'. fold verdict in Et. rewrite Et, Em', Er. split.
        * apply fold_stamp_Forall_gen; [reflexivity|].
          constructor; [reflexivity | constructor].
        * lia.
      + destruct (way_to_the_end_with_correctness ast_parse code criteria
                    Em Hhigh) as (_ & _ & Ep & _ & Er & _).
        cbv zeta in Ep. rewrite <- Ep, Ht, Er. split; [|lia].
        apply fold_step_Forall; [reflexivity|].
        constructor; [reflexivity | constructor].
    - destruct (way_to_the_end_without_correctness ast_parse code criteria
                  Em) as (_ & _ & Ep & _ & Er & _).
      cbv zeta in Ep. rewrite <- Ep, Ht, Er. split; [|lia].
      apply fold_step_Forall; [reflexivity | constructor]. }
  destruct Hten as [Hten Hrange].
  split; [exact Hrange|]. split; [|apply max_score_zero_iff].
  rewrite Forall_forall in Hshape, Hten |- *.
  intros kv Hkv. split; [now apply Hshape | now apply Hten].
Qed.

(** X7.  The order of the names in a request only shows in the order of
    [criteria_results]: two requests that are permutations of each other
    give the same [total_score], [max_score], [percentage] and
    [summary]. *)
Theorem X7_order_is_immaterial code l l' :
  Permutation l l' ->
  let r := evaluate_code ast_parse code (Some l) in
  let r' := evaluate_code ast_parse code (Some l') in
  total_score r = total_score r'
  /\ max_score r = max_score r'
  /\ percentage r = percentage r'
  /\ summary r = summary r'.
Proof.
  intros Hp r r'. subst r r'.
  pose proof (valid_criteria_Permutation l l' Hp) as Hv.
  pose proof (contributions_Permutation code _ _ Hv) as Hc.
  pose proof (turns_scored_Permutation _ _ Hv) as Htn.
  pose proof (mem_Permutation "correctness" _ _ Hv) as Hm.
  pose proof (Permutation_length Hv) as Hl.
  destruct (report_fields ast_parse code (Some l)) as [Ht [Hpc _]].
  destruct (report_fields ast_parse code (Some l')) as [Ht' [Hpc' _]].
  cbv zeta in Ht, Hpc, Ht', Hpc'.
  set (verdict := evaluate_syntactic_correctness ast_parse code).
  destruct (mem "correctness" (valid_criteria_of (Some l))) eqn:Em.
  - symmetry in Hm.
    destruct (Z.lt_ge_cases (fst verdict) 3) as [Hlow|Hhigh].
    + destruct (way_after_syntax_errors ast_parse code (Some l) Em Hlow)
        as (E1 & E2 & E3 & E4 & _).
      destruct (way_after_syntax_errors ast_parse code (Some l') Hm Hlow)
        as (E1' & E2' & E3' & E4' & _).
      cbv zeta in E3, E3'.
      rewrite Hpc, Hpc', <- Ht, <- Ht', E1, E1', E2, E2', E3, E3', E4, E4', Hl.
      repeat split.
    + destruct (way_to_the_end_with_correctness ast_parse code (Some l)
                  Em Hhigh) as (E1 & E2 & E3 & E4 & _).
      destruct (way_to_the_end_with_correctness ast_parse code (Some l')
                  Hm Hhigh) as (E1' & E2' & E3' & E4' & _).
      cbv zeta in E3, E3'.
      assert (Hpct : percentage (evaluate_code ast_parse code (Some l))
                     = percentage (evaluate_code ast_parse code (Some l')))
        by (rewrite Hpc, Hpc', <- Ht, <- Ht', E1, E1', E3, E3', E2, E2',
              Hc, Htn; reflexivity).
      rewrite E4, E4', Hpct, E1, E1', E2, E2', Hc, Htn. repeat split.
  - symmetry in Hm.
    destruct (way_to_the_end_without_correctness ast_parse code (Some l) Em)
      as (E1 & E2 & E3 & E4 & _).
    destruct (way_to_the_end_without_correctness ast_parse code (Some l') Hm)
      as (E1' & E2' & E3' & E4' & _).
    cbv zeta in E3, E3'.
    assert (Hpct : percentage (evaluate_code ast_parse code (Some l))
                   = percentage (evaluate_code ast_parse code (Some l')))
      by (rewrite Hpc, Hpc', <- Ht, <- Ht', E1, E1', E3, E3', E2, E2',
            Hc, Htn; reflexivity).
    rewrite E4, E4', Hpct, E1, E1', E2, E2', Hc, Htn. repeat split.
Qed.

(** X8.  When the evaluation runs to its end over at least one valid
    name, the summary is decided by the integers [total_score] and
    [max_score]: high quality from four fifths on, solid from three
    fifths, in need of improvement from two fifths, significant issues
    below. *)
Theorem X8_summary_tiers code criteria :
  mem "correctness" (valid_criteria_of criteria) = false
  \/ 3 <= fst (evaluate_syntactic_correctness ast_parse code) ->
  valid_criteria_of criteria <> [] ->
  let r := evaluate_code ast_parse code criteria in
  summary r = tier (total_score r) (max_score r).
Proof.
  intros Hway Hne r. subst r.
  destruct (report_fields ast_parse code criteria) as [Ht [Hpc _]].
  cbv zeta in Ht, Hpc.
  assert (Hpos : 0 < max_score (evaluate_code ast_parse code criteria)).
  { destruct (sound_final_state ast_parse code criteria) as [_ Hs].
    destruct (Z.eq_dec (max_score (evaluate_code ast_parse code criteria)) 0)
      as [E|E]; [apply max_score_zero_iff in E; contradiction|].
    destruct (mem "correctness" (valid_criteria_of criteria)) eqn:Em.
    - destruct Hway as [Hway|Hway]; [discriminate|].
      destruct (way_to_the_end_with_correctness ast_parse code criteria
                  Em Hway) as (_ & _ & E3 & _).
      cbv zeta in E3. lia.
    - destruct (way_to_the_end_without_correctness ast_parse code criteria
                  Em) as (_ & _ & E3 & _).
      cbv zeta in E3. lia. }
  destruct (mem "correctness" (valid_criteria_of criteria)) eqn:Em.
  - destruct Hway as [Hway|Hway]; [discriminate|].
    destruct (way_to_the_end_with_correctness ast_parse code criteria
                Em Hway) as (_ & _ & E3 & E4 & _).
    cbv zeta in E3. rewrite E4, Hpc, E3, <- Ht.
    now apply summary_tier.
  - destruct (way_to_the_end_without_correctness ast_parse code criteria Em)
      as (_ & _ & E3 & E4 & _).
    cbv zeta in E3. rewrite E4, Hpc, E3, <- Ht.
    now apply summary_tier.
Qed.

End Bounds.

(* ================================================================== *)
(** ** Default request, calls of the analyzers, empty evaluation *)
(* ================================================================== *)

Lemma process_never_parses code l :
  forall f,
    ~ In "evaluate_syntactic_correctness" (invoked f) ->
    ~ In "evaluate_syntactic_correctness"
        (invoked (fold_left (process code) l f)).
Proof.
  induction l as [|c l IH]; intros f H; [assumption|].
  cbn [fold_left]. apply IH. unfold process.
  split_ifs; cbn [store call invoked]; try assumption;
    (intro Hin; apply in_app_or in Hin; destruct Hin as [Hin|[Hin|[]]];
     [now apply H | discriminate Hin]).
Qed.

Section Requests.
Variable ast_parse : string -> ParseOutcome.

(** X9.  Without criteria, or with the empty list, the report has the
    five default keys in their order and [max_score] 50, whether the text
    parses or not. *)
Theorem X9_default_request code criteria :
  criteria = None \/ criteria = Some [] ->
  let r := evaluate_code ast_parse code criteria in
  keys (criteria_results r) = DEFAULT_CRITERIA /\ max_score r = 50.
Proof.
  intros Hc r. subst r.
  assert (Hv : valid_criteria_of criteria = DEFAULT_CRITERIA)
    by (destruct Hc as [-> | ->]; reflexivity).
  split.
  - rewrite keys_of_report, Hv. reflexivity.
  - assert (Em : mem "correctness" (valid_criteria_of criteria) = true)
      by (rewrite Hv; reflexivity).
    destruct (Z.lt_ge_cases
                (fst (evaluate_syntactic_correctness ast_parse code)) 3)
      as [Hlow|Hhigh].
    + destruct (way_after_syntax_errors ast_parse code criteria Em Hlow)
        as (_ & -> & _).
      rewrite Hv. reflexivity.
    + destruct (way_to_the_end_with_correctness ast_parse code criteria
                  Em Hhigh) as (_ & -> & _).
      rewrite Hv. reflexivity.
Qed.

(** X10.  The analyzers that an evaluation calls: the syntax analyzer
    once, first, when correctness is requested; after a correctness score
    below 3 nothing else; otherwise, for every occurrence of a name in the
    valid list, in order, its pattern analyzer, if it has one. *)
Theorem X10_analyzers_called code criteria :
  let valid := valid_criteria_of criteria in
  invoked (locals (evaluate_code_state ast_parse code criteria))
  = if mem "correctness" valid then
      "evaluate_syntactic_correctness"
      :: (if fst (evaluate_syntactic_correctness ast_parse code) <? 3
          then [] else flat_map analyzer_calls valid)
    else flat_map analyzer_calls valid.
Proof.
  intro valid. subst valid.
  destruct (mem "correctness" (valid_criteria_of criteria)) eqn:Em.
  - destruct (Z.ltb_spec
                (fst (evaluate_syntactic_correctness ast_parse code)) 3)
      as [Hlow|Hhigh].
    + now destruct (way_after_syntax_errors ast_parse code criteria Em Hlow)
        as (_ & _ & _ & _ & _ & ->).
    + now destruct (way_to_the_end_with_correctness ast_parse code criteria
                      Em Hhigh) as (_ & _ & _ & _ & _ & ->).
  - now destruct (way_to_the_end_without_correctness ast_parse code criteria
                    Em) as (_ & _ & _ & _ & _ & ->).
Qed.

(** X12.  A request none of whose names is in the registry gives the
    empty report: sums and percentage 0, no entry, the summary of
    significant issues, and no analyzer is called. *)
Theorem X12_nothing_valid code criteria :
  valid_criteria_of criteria = [] ->
  evaluate_code ast_parse code criteria
  = {| total_score := 0; max_score := 0; percentage := 0%Q;
       criteria_results := [];
       summary := "Code has significant issues that should be addressed." |}
  /\ invoked (locals (evaluate_code_state ast_parse code criteria)) = [].
Proof.
  intro H. unfold evaluate_code, evaluate_code_state. rewrite H.
  split; reflexivity.
Qed.

End Requests.

(** X11.  The parser is consulted only for correctness: when correctness
    is not among the valid names, the report is the same whatever the
    parser does, and the syntax analyzer is not called. *)
Theorem X11_parser_only_for_correctness parse1 parse2 code criteria :
  mem "correctness" (valid_criteria_of criteria) = false ->
  evaluate_code parse1 code criteria = evaluate_code parse2 code criteria
  /\ ~ In "evaluate_syntactic_correctness"
         (invoked (locals (evaluate_code_state parse1 code criteria))).
Proof.
  intro H. split.
  - unfold evaluate_code, evaluate_code_state. now rewrite H.
  - unfold evaluate_code_state. rewrite H. cbn [locals].
    apply process_never_parses. intros [].
Qed.

(* ================================================================== *)
(** ** Tiers of the pattern analyzers *)
(* ================================================================== *)

(** X13.  The readability analyzer never returns its best verdict: the
    returned message is the one of the middle tier or the one of the low
    tier, followed by the issues. *)
Theorem X13_never_very_readable code :
  snd (evaluate_readability code)
  <> "Code is very readable with good naming and formatting."
  /\ snd (evaluate_readability code)
     = String.append
         (if 5 <=? fst (evaluate_readability code)
          then "Code has reasonable readability but could be improved. "
          else "Code has readability issues: ")
         (issue_lines (t_issues (readability_tally code))).
Proof.
  pose proof (readability_bounds code) as Hb.
  rewrite readability_score in Hb |- *.
  assert (E : snd (evaluate_readability code)
              = String.append
                  (if 5 <=? t_score (readability_tally code)
                   then "Code has reasonable readability but could be improved. "
                   else "Code has readability issues: ")
                  (issue_lines (t_issues (readability_tally code)))).
  { unfold evaluate_readability.
    destruct (Z.leb_spec 8 (t_score (readability_tally code))); [lia|].
    destruct (5 <=? t_score (readability_tally code)); reflexivity. }
  split; [|exact E].
  rewrite E. destruct (5 <=? t_score (readability_tally code));
    cbn [append]; discriminate.
Qed.

(** X14.  The efficiency analyzer gives 8 or more, and with it its best
    verdict, only to a text in which it finds a list comprehension. *)
Theorem X14_efficient_needs_comprehension code :
  8 <= fst (evaluate_efficiency code)
  \/ snd (evaluate_efficiency code)
     = "Code appears to be efficient with good algorithmic choices." ->
  (0 < comprehensions code)%nat.
Proof.
  assert (Hs : 8 <= t_score (efficiency_tally code) ->
               (0 < comprehensions code)%nat).
  { unfold efficiency_tally, eff_comprehensions.
    destruct (0 <? comprehensions code)%nat eqn:E;
      [intros _; now apply Nat.ltb_lt|].
    unfold eff_nested_loops, eff_range_len, eff_increment, deduct,
      start_tally.
    split_ifs; cbn [t_score]; lia. }
  intros [H|H].
  - apply Hs. now rewrite <- efficiency_score.
  - apply Hs. revert H. unfold evaluate_efficiency.
    destruct (Z.leb_spec 8 (t_score (efficiency_tally code))); [easy|].
    destruct (5 <=? t_score (efficiency_tally code));
      cbn [snd append]; discriminate.
Qed.

(** X15.  The best-practices analyzer gives 8 or more only to a text in
    which it finds a with or a matched try and except without a bare
    handler; and a text with a bare except: gets 8 at most. *)
Theorem X15_best_practices_tiers code :
  (8 <= fst (evaluate_best_practices code) ->
   (0 < with_count code)%nat
   \/ ((0 < try_blocks code)%nat
       /\ try_blocks code = except_blocks code
       /\ contains "except:" code = false))
  /\ (contains "except:" code = true ->
      fst (evaluate_best_practices code) <= 8).
Proof.
  rewrite best_practices_score.
  pose proof (Z.div_pos (Z.of_nat (List.length (magic_numbers code))) 5
                ltac:(lia) ltac:(lia)) as Hdiv.
  unfold best_practices_tally, bp_context_managers, bp_exception_handling.
  split.
  - destruct (0 <? with_count code)%nat eqn:Ew;
      [intros _; left; now apply Nat.ltb_lt|].
    destruct (0 <? try_blocks code)%nat eqn:Et; cbn [andb].
    + destruct (try_blocks code =? except_blocks code)%nat eqn:Ee;
        cbn [andb].
      * destruct (contains "except:" code) eqn:Eb; cbn [negb].
        -- unfold bp_magic_numbers, bp_global_vars, deduct, start_tally.
           split_ifs; cbn [t_score];
             repeat match goal with
                    | H : (_ <? _)%nat = true |- _ => apply Nat.ltb_lt in H
                    end; lia.
        -- intros _. right. apply Nat.ltb_lt in Et. apply Nat.eqb_eq in Ee.
           auto.
      * unfold bp_magic_numbers, bp_global_vars, deduct, start_tally.
        split_ifs; cbn [t_score];
          repeat match goal with
                 | H : (_ <? _)%nat = true |- _ => apply Nat.ltb_lt in H
                 end; lia.
    + unfold bp_magic_numbers, bp_global_vars, deduct, start_tally.
      split_ifs; cbn [t_score];
        repeat match goal with
               | H : (_ <? _)%nat = true |- _ => apply Nat.ltb_lt in H
               end; lia.
  - intro Hb. rewrite Hb. rewrite andb_false_r.
    unfold bp_magic_numbers, bp_global_vars, deduct, award, start_tally.
    split_ifs; cbn [t_score];
      repeat match goal with
             | H : (_ <? _)%nat = true |- _ => apply Nat.ltb_lt in H
             end; lia.
Qed.

(** X16.  The documentation score on integers: with [d] docstrings, [c]
    comment lines and [l] code lines it is 9 when 10 (d + c) is at least
    3 max(1, l) and d is positive, else 6 when 100 (d + c) is at least
    15 max(1, l), else 3.  A text without docstring and without comment
    line scores 3. *)
Theorem X16_documentation_bands code :
  fst (evaluate_documentation code)
  = documentation_band (List.length (docstrings code)) (comment_count code)
      (code_lines code)
  /\ (docstrings code = [] -> comment_count code = 0%nat ->
      fst (evaluate_documentation code) = 3).
Proof.
  assert (E : fst (evaluate_documentation code)
              = documentation_band (List.length (docstrings code))
                  (comment_count code) (code_lines code)).
  { unfold evaluate_documentation, documentation_band, doc_ratio.
    change (3 # 10)%Q with (3 # Z.to_pos 10)%Q.
    change (15 # 100)%Q with (15 # Z.to_pos 100)%Q.
    rewrite !ratio_at_least by lia.
    split_ifs; reflexivity. }
  split; [exact E|].
  intros Hd Hc. rewrite E, Hd, Hc. unfold documentation_band.
  cbn [List.length Nat.add]. change (Z.of_nat 0) with 0.
  rewrite !Z.mul_0_r.
  change (0 <? 0)%nat with false. rewrite andb_false_r.
  destruct (Z.leb_spec (15 * Z.of_nat (Nat.max 1 (code_lines code))) 0);
    [lia | reflexivity].
Qed.

(* ================================================================== *)
(** ** The line counter *)
(* ================================================================== *)

Lemma startswith_hash a x : startswith "#" (String a x) = is_char "#" a.
Proof.
  unfold startswith, is_char. cbn [String.prefix].
  destruct (ascii_dec "#" a) as [<-|Hne].
  - rewrite Ascii.eqb_refl. now destruct x.
  - symmetry. now apply Ascii.eqb_neq.
Qed.

Lemma strip_space a h : is_space a = true -> strip (String a h) = strip h.
Proof. intro H. unfold strip. cbn [lstrip]. now rewrite H. Qed.

Lemma strip_nonspace a h :
  is_space a = false -> strip (String a h) = String a (rstrip h).
Proof.
  intro H. unfold strip. cbn [lstrip]. rewrite H. cbn [rstrip].
  now rewrite H, andb_false_r.
Qed.

Lemma newline_is_space a : is_char NL a = true -> is_space a = true.
Proof. intro H. apply Ascii.eqb_eq in H. now subst a. Qed.

Lemma code_line_space a h :
  is_space a = true -> is_code_line (String a h) = is_code_line h.
Proof.
  intro H. unfold is_code_line, is_nonblank_line. now rewrite strip_space.
Qed.

Lemma code_line_nonspace a h :
  is_space a = false -> is_code_line (String a h) = negb (is_char "#" a).
Proof.
  intro H. unfold is_code_line, is_nonblank_line.
  rewrite strip_nonspace by assumption.
  now rewrite startswith_hash.
Qed.

Lemma split_nl_cons s : exists h r, split_nl s = h :: r.
Proof.
  induction s as [|a t [h [r IH]]]; cbn [split_nl]; [now eexists; eexists|].
  destruct (is_char NL a); [now eexists; eexists|].
  rewrite IH. now eexists; eexists.
Qed.

(** The scan of the characters counts the code lines of the split text;
    when the scan starts inside a line that is already decided, the first
    line of the split is left out. *)
Lemma scan_counts_lines s :
  forall decided,
    code_line_scan decided s
    = match split_nl s with
      | h :: r =>
          ((if decided then 0 else if is_code_line h then 1 else 0)
           + how_many is_code_line r)%nat
      | [] => 0%nat
      end.
Proof.
  induction s as [|a t IH]; intro decided.
  - cbn. now destruct decided.
  - cbn [code_line_scan split_nl].
    destruct (is_char NL a) eqn:En.
    + rewrite (IH false).
      destruct (split_nl_cons t) as [h [r ->]].
      unfold how_many. cbn [filter].
      change (is_code_line EmptyString) with false.
      destruct decided, (is_code_line h); cbn [List.length]; lia.
    + destruct (split_nl_cons t) as [h [r Ht]].
      destruct decided.
      * rewrite (IH true), Ht. reflexivity.
      * destruct (is_space a) eqn:Es.
        -- rewrite (IH false), Ht. now rewrite code_line_space.
        -- rewrite (IH true), Ht. rewrite code_line_nonspace by assumption.
           now destruct (is_char "#" a).
Qed.

Lemma scan_is_how_many s :
  code_line_scan false s = how_many is_code_line (split_nl s).
Proof.
  rewrite scan_counts_lines.
  destruct (split_nl_cons s) as [h [r ->]].
  unfold how_many. cbn [filter]. now destruct (is_code_line h).
Qed.

Lemma scan_space decided a t :
  is_space a = true ->
  code_line_scan decided (String a t)
  = code_line_scan (decided && negb (is_char NL a)) t.
Proof.
  intro H. cbn [code_line_scan].
  destruct (is_char NL a); [now rewrite andb_false_r|].
  rewrite H. now destruct decided.
Qed.

Lemma scan_rstrip s :
  forall decided,
    code_line_scan decided (rstrip s) = code_line_scan decided s.
Proof.
  induction s as [|a t IH]; intro decided; [reflexivity|].
  cbn [rstrip].
  destruct (is_empty (rstrip t) && is_space a) eqn:E.
  - apply andb_prop in E. destruct E as [Ee Es].
    rewrite scan_space by assumption. rewrite <- IH.
    destruct (rstrip t); [reflexivity | discriminate].
  - cbn [code_line_scan]. now rewrite !IH.
Qed.

Lemma scan_lstrip s :
  code_line_scan false (lstrip s) = code_line_scan false s.
Proof.
  induction s as [|a t IH]; [reflexivity|].
  cbn [lstrip]. destruct (is_space a) eqn:Es; [|reflexivity].
  rewrite IH. now rewrite scan_space.
Qed.

Lemma fold_count_line lines :
  forall n,
    fold_left count_line lines n = (n + how_many is_code_line lines)%nat.
Proof.
  unfold how_many.
  induction lines as [|line lines IH]; intro n; [cbn; lia|].
  cbn [fold_left filter]. rewrite IH.
  unfold count_line, is_code_line, is_nonblank_line.
  destruct (negb (is_empty (strip line))
            && negb (startswith "#" (strip line))); cbn [List.length]; lia.
Qed.

Lemma hash_is_no_docstring line :
  startswith "#" line = true -> startswith QQQ line = false.
Proof.
  destruct line as [|a x]; [discriminate|].
  rewrite startswith_hash. intro H. apply Ascii.eqb_eq in H. subst a.
  reflexivity.
Qed.

Lemma how_many_cons (p : string -> bool) x l :
  how_many p (x :: l) = ((if p x then 1 else 0) + how_many p l)%nat.
Proof. unfold how_many. cbn [filter]. now destruct (p x). Qed.

Lemma doc_line_counts acc line :
  fst (doc_line acc line)
  = (fst acc + (if is_comment_line line then 1 else 0))%nat
  /\ (snd (doc_line acc line)
      <= snd acc + (if is_code_line line then 1 else 0))%nat.
Proof.
  destruct acc as [c l].
  unfold doc_line, is_comment_line, is_code_line, is_nonblank_line.
  cbn [fst snd].
  destruct (is_empty (strip line)); cbn [negb andb fst snd]; [lia|].
  destruct (startswith "#" (strip line)) eqn:Eh.
  - rewrite (hash_is_no_docstring _ Eh). cbn [negb fst snd]. lia.
  - destruct (startswith QQQ (strip line)); cbn [negb fst snd]; [lia|].
    destruct (endswith QQQ (strip line)); cbn [negb fst snd]; lia.
Qed.

Lemma fold_doc_line lines :
  forall acc,
    fst (fold_left doc_line lines acc)
    = (fst acc + how_many is_comment_line lines)%nat
    /\ (snd (fold_left doc_line lines acc)
        <= snd acc + how_many is_code_line lines)%nat.
Proof.
  induction lines as [|line lines IH]; intro acc;
    [unfold how_many; cbn; lia|].
  cbn [fold_left]. rewrite !how_many_cons.
  destruct (IH (doc_line acc line)) as [IH1 IH2].
  destruct (doc_line_counts acc line) as [H1 H2].
  lia.
Qed.

Lemma how_many_partition lines :
  (how_many is_comment_line lines + how_many is_code_line lines
   = how_many is_nonblank_line lines)%nat.
Proof.
  unfold how_many.
  induction lines as [|line lines IH]; [reflexivity|].
  cbn [filter]. unfold is_comment_line at 1, is_code_line at 1.
  destruct (is_nonblank_line line), (startswith "#" (strip line));
    cbn [andb negb List.length]; lia.
Qed.

(** X17.  [count_lines] counts the lines of the text itself that hold
    something else than white space and do not begin, after their
    indentation, with the hash sign: stripping the text first changes
    nothing to the count. *)
Theorem X17_count_lines code :
  count_lines code = how_many is_code_line (split_nl code).
Proof.
  unfold count_lines. rewrite fold_count_line. cbn [Nat.add].
  rewrite <- !scan_is_how_many. unfold strip.
  now rewrite scan_rstrip, scan_lstrip.
Qed.

(** X18.  The counters of the documentation analyzer against
    [count_lines]: the comment lines and the lines counted by
    [count_lines] are together the lines that are not blank, and the code
    lines of the documentation analyzer, which leave out the lines that
    open or close a docstring, are at most those of [count_lines]. *)
Theorem X18_lines_partition code :
  (comment_count code + count_lines code
   = how_many is_nonblank_line (split_nl code))%nat
  /\ (code_lines code <= count_lines code)%nat.
Proof.
  assert (Hc : count_lines code = how_many is_code_line (split_nl code)).
  { unfold count_lines. rewrite fold_count_line. cbn [Nat.add].
    rewrite <- !scan_is_how_many. unfold strip.
    now rewrite scan_rstrip, scan_lstrip. }
  destruct (fold_doc_line (split_nl code) (0%nat, 0%nat)) as [H1 H2].
  cbn [fst snd Nat.add] in H1, H2.
  unfold comment_count, code_lines, doc_counts. rewrite Hc, H1.
  split; [apply how_many_partition | exact H2].
Qed.

(** X19.  The ranges of the five analyzers: correctness gives 0, 2 or 10,
    documentation 3, 6 or 9, efficiency 2 to 9, readability 0 to 7 and
    best practices 2 to 10; none gives a negative score. *)
Theorem X19_analyzer_ranges (ast_parse : string -> ParseOutcome) code :
  (fst (evaluate_syntactic_correctness ast_parse code) = 10
   \/ fst (evaluate_syntactic_correctness ast_parse code) = 0
   \/ fst (evaluate_syntactic_correctness ast_parse code) = 2)
  /\ (fst (evaluate_documentation code) = 9
      \/ fst (evaluate_documentation code) = 6
      \/ fst (evaluate_documentation code) = 3)
  /\ 2 <= fst (evaluate_efficiency code) <= 9
  /\ 0 <= fst (evaluate_readability code) <= 7
  /\ 2 <= fst (evaluate_best_practices code) <= 10.
Proof.
  split; [apply correctness_scores|].
  split; [apply documentation_scores|].
  split; [apply efficiency_bounds|].
  split; [apply readability_bounds | apply best_practices_bounds].
Qed.

(* ================================================================== *)
(** ** The further properties at concrete inputs *)
(* ================================================================== *)

Lemma X1_witness :
  keys (criteria_results (evaluate_code example_parser "pass" mixed_request))
  = ["correctness"; "security"].
Proof.
  pose proof (proj1 (X1_order_of_results example_parser "pass" mixed_request))
    as H.
  assert (Hm : mem "correctness" (valid_criteria_of mixed_request) = true)
    by (vm_compute; reflexivity).
  exact (H Hm).
Defined.

Lemma X2_witness :
  is_criterion "security" = true.
Proof.
  pose proof (X2_reported_names example_parser "pass" mixed_request) as H.
  apply (proj1 (proj2 H)). apply (proj1 H).
  vm_compute. left. reflexivity.
Defined.

Lemma X3_witness :
  dict_get "security"
    (criteria_results
       (evaluate_code example_parser "pass" (Some ["security"; "efficiency"])))
  = Some (entry_of
            (5, "Basic security check - detailed evaluation not implemented yet.")).
Proof.
  assert (H1 : mem "correctness"
                 (valid_criteria_of (Some ["security"; "efficiency"])) = false)
    by (vm_compute; reflexivity).
  assert (H2 : In "security"
                 (valid_criteria_of (Some ["security"; "efficiency"])))
    by (vm_compute; left; reflexivity).
  assert (H3 : "security" <> "correctness") by discriminate.
  exact (X3_entries_are_independent example_parser "pass"
           (Some ["security"; "efficiency"]) "security" (or_introl H1) H2 H3).
Defined.

Lemma X4_witness :
  hd_error
    (criteria_results
       (evaluate_code example_parser "(" (Some ["security"; "correctness"])))
  = Some ("correctness",
          entry_of (evaluate_syntactic_correctness example_parser "(")).
Proof.
  assert (H : In "correctness"
                (valid_criteria_of (Some ["security"; "correctness"])))
    by (vm_compute; right; left; reflexivity).
  exact (X4_correctness_first example_parser "("
           (Some ["security"; "correctness"]) H).
Defined.

Lemma X5_witness :
  let r := evaluate_code example_parser "pass" None in
  total_score r = sum_scores (criteria_results r)
  /\ max_score r = 10 * Z.of_nat (List.length (criteria_results r)).
Proof.
  exact (X5_sums_match_entries example_parser "pass" None
           (NoDup_dedup_from DEFAULT_CRITERIA [])).
Defined.

Lemma X7_witness :
  let r := evaluate_code example_parser "pass"
             (Some ["efficiency"; "security"]) in
  let r' := evaluate_code example_parser "pass"
              (Some ["security"; "efficiency"]) in
  total_score r = total_score r'
  /\ max_score r = max_score r'
  /\ percentage r = percentage r'
  /\ summary r = summary r'.
Proof.
  exact (X7_order_is_immaterial example_parser "pass"
           ["efficiency"; "security"] ["security"; "efficiency"]
           (perm_swap "security" "efficiency" [])).
Defined.

Lemma X8_witness :
  let r := evaluate_code example_parser "pass" (Some ["efficiency"]) in
  summary r = tier (total_score r) (max_score r).
Proof.
  assert (H1 : mem "correctness" (valid_criteria_of (Some ["efficiency"]))
               = false) by (vm_compute; reflexivity).
  assert (H2 : valid_criteria_of (Some ["efficiency"]) <> [])
    by (vm_compute; discriminate).
  exact (X8_summary_tiers example_parser "pass" (Some ["efficiency"])
           (or_introl H1) H2).
Defined.

Lemma X9_witness :
  let r := evaluate_code example_parser "(" None in
  keys (criteria_results r) = DEFAULT_CRITERIA /\ max_score r = 50.
Proof.
  exact (X9_default_request example_parser "(" None (or_introl eq_refl)).
Defined.

Lemma X11_witness :
  evaluate_code example_parser "(" (Some ["readability"])
  = evaluate_code (fun _ => RaisedException "no parser") "("
      (Some ["readability"])
  /\ ~ In "evaluate_syntactic_correctness"
         (invoked (locals (evaluate_code_state example_parser "("
                             (Some ["readability"])))).
Proof.
  assert (H : mem "correctness" (valid_criteria_of (Some ["readability"]))
              = false) by (vm_compute; reflexivity).
  exact (X11_parser_only_for_correctness example_parser
           (fun _ => RaisedException "no parser") "("
           (Some ["readability"]) H).
Defined.

Lemma X12_witness :
  evaluate_code example_parser "pass" (Some ["bogus"])
  = {| total_score := 0; max_score := 0; percentage := 0%Q;
       criteria_results := [];
       summary := "Code has significant issues that should be addressed." |}
  /\ invoked (locals (evaluate_code_state example_parser "pass"
                        (Some ["bogus"]))) = [].
Proof.
  assert (H : valid_criteria_of (Some ["bogus"]) = [])
    by (vm_compute; reflexivity).
  exact (X12_nothing_valid example_parser "pass" (Some ["bogus"]) H).
Defined.

Lemma X14_witness : (0 < comprehensions comprehension_code)%nat.
Proof.
  assert (H : snd (evaluate_efficiency comprehension_code)
              = "Code appears to be efficient with good algorithmic choices.")
    by (vm_compute; reflexivity).
  exact (X14_efficient_needs_comprehension comprehension_code (or_intror H)).
Defined.

Lemma X15_witness :
  ((0 < with_count specific_handler_code)%nat
   \/ ((0 < try_blocks specific_handler_code)%nat
       /\ try_blocks specific_handler_code
          = except_blocks specific_handler_code
       /\ contains "except:" specific_handler_code = false))
  /\ fst (evaluate_best_practices bare_handler_code) <= 8.
Proof.
  split.
  - assert (H : 8 <= fst (evaluate_best_practices specific_handler_code))
      by (vm_compute; discriminate).
    exact (proj1 (X15_best_practices_tiers specific_handler_code) H).
  - assert (H : contains "except:" bare_handler_code = true)
      by (vm_compute; reflexivity).
    exact (proj2 (X15_best_practices_tiers bare_handler_code) H).
Defined.

Lemma X16_witness : fst (evaluate_documentation "pass") = 3.
Proof.
  assert (H1 : docstrings "pass" = []) by (vm_compute; reflexivity).
  assert (H2 : comment_count "pass" = 0%nat) by (vm_compute; reflexivity).
  exact (proj2 (X16_documentation_bands "pass") H1 H2).
Defined.
